(** * kitfucoda-intro2: the actor runtime and the event registry

    A shallow embedding of [framework/common.py], [framework/actor.py],
    [framework/game.py] and [framework/event.py].

    - Python exceptions are the [Raise] case of [outcome].
    - A [frozendict] is an insertion-ordered association list: iteration
      order is observable in the dispatcher, so the order is kept.
    - The mailbox, the detached tasks and the reply futures are the fields
      of an explicit [world] threaded through a state-and-error monad.
    - [while True] loops take fuel; [None] means the fuel ran out.

    Part I holds the definitions, Part II the lemmas and theorems on the
    mailbox, the registry and the pointer dispatch, Part III those on the
    rest of the framework. *)

From Stdlib Require Import List ZArith NArith String Bool Lia.
Import ListNotations.

Set Warnings "-register-all".

(** * Part I: the embedding *)

(** ** Exceptions and results *)

Inductive exn : Type :=
| AssertionError
| TypeError
| AttributeError
| KeyError
| CancelledError
| InvalidStateError
| PygameError
| Exception (msg : string)
| ExceptionGroup (members : list exn).

Inductive outcome (A : Type) : Type :=
| Ok (a : A)
| Raise (e : exn).

Arguments Ok {A} a.
Arguments Raise {A} e.

Definition obind {A B : Type} (m : outcome A) (k : A -> outcome B) : outcome B :=
  match m with
  | Ok a => k a
  | Raise e => Raise e
  end.

Class EqDec (K : Type) : Type :=
  eq_dec : forall x y : K, {x = y} + {x <> y}.

#[export] Instance string_EqDec : EqDec string := string_dec.
#[export] Instance Z_EqDec : EqDec Z := Z.eq_dec.
#[export] Instance N_EqDec : EqDec N := N.eq_dec.
#[export] Instance nat_EqDec : EqDec nat := Nat.eq_dec.

(** ** frozendict

    The operations of the [frozendict] package that the framework calls:
    [get], [d[k]], [set], [delete], [items] and [keys].  [set] on a present
    key keeps the key's position, on an absent key it appends; [delete]
    raises [KeyError] on an absent key. *)

Module Frozendict.
Section Defs.
Context {K V : Type} `{EqDec K}.

Definition t : Type := list (K * V).

Definition empty : t := [].

Fixpoint get (d : t) (k : K) : option V :=
  match d with
  | [] => None
  | (k', v) :: d' => if eq_dec k k' then Some v else get d' k
  end.

Definition get_default (d : t) (k : K) (default : V) : V :=
  match get d k with
  | Some v => v
  | None => default
  end.

Definition getitem (d : t) (k : K) : outcome V :=
  match get d k with
  | Some v => Ok v
  | None => Raise KeyError
  end.

Fixpoint set (d : t) (k : K) (v : V) : t :=
  match d with
  | [] => [(k, v)]
  | (k', v') :: d' =>
      if eq_dec k k' then (k', v) :: d' else (k', v') :: set d' k v
  end.

Fixpoint remove (d : t) (k : K) : t :=
  match d with
  | [] => []
  | (k', v') :: d' =>
      if eq_dec k k' then d' else (k', v') :: remove d' k
  end.

Definition delete (d : t) (k : K) : outcome t :=
  match get d k with
  | Some _ => Ok (remove d k)
  | None => Raise KeyError
  end.

Definition items (d : t) : list (K * V) := d.

Definition keys (d : t) : list K := map fst d.

(** Every frozendict has pairwise distinct keys. *)
Definition wf (d : t) : Prop := NoDup (keys d).

End Defs.
Arguments t : clear implicits.
End Frozendict.

(** ** Python values

    The values a State, a field of it, a field name or an operation's result
    can be.  [PyData cls fields] is an instance of the dataclass [cls] with
    its fields in declaration order; instance attributes are exactly the
    fields. *)

Inductive pyval : Type :=
| PyNone
| PyBool (b : bool)
| PyInt (n : Z)
| PyStr (s : string)
| PyTuple (elts : list pyval)
| PyDict (entries : list (pyval * pyval))
| PyData (cls : string) (fields : Frozendict.t string pyval).

(** What [bool(obj)] answers for an instance of a dataclass: [True] unless
    the class defines [__bool__] or [__len__]. *)
Class PyClasses : Type :=
  dataclass_bool : string -> Frozendict.t string pyval -> bool.

Definition default_truth : PyClasses := fun _ _ => true.

Section Builtins.
Context `{PyClasses}.

(** Truth value testing, as [if x], [assert x] and [x if c else y] do it. *)
Definition truthy (v : pyval) : bool :=
  match v with
  | PyNone => false
  | PyBool b => b
  | PyInt n => negb (n =? 0)%Z
  | PyStr s => negb (s =? "")%string
  | PyTuple elts => negb (List.length elts =? 0)%nat
  | PyDict entries => negb (List.length entries =? 0)%nat
  | PyData cls fields => dataclass_bool cls fields
  end.

Definition is_dataclass (v : pyval) : bool :=
  match v with
  | PyData _ _ => true
  | _ => false
  end.

(** [getattr(obj, name)]. *)
Definition getattr (obj name : pyval) : outcome pyval :=
  match name with
  | PyStr attr =>
      match obj with
      | PyData _ fields =>
          match Frozendict.get fields attr with
          | Some v => Ok v
          | None => Raise AttributeError
          end
      | _ => Raise AttributeError
      end
  | _ => Raise TypeError
  end.

(** [dataclasses.replace(obj, **{key: value})]: a keyword that is not a
    string, or that names no field of the class, is a [TypeError]. *)
Definition replace (obj key value : pyval) : outcome pyval :=
  match key with
  | PyStr name =>
      match obj with
      | PyData cls fields =>
          match Frozendict.get fields name with
          | Some _ => Ok (PyData cls (Frozendict.set fields name value))
          | None => Raise TypeError
          end
      | _ => Raise TypeError
      end
  | _ => Raise TypeError
  end.

End Builtins.

(** ** framework/actor.py and framework/common.py *)

Module Actor.

Record Operation : Type := {
  op : pyval -> list pyval -> list (string * pyval) -> outcome pyval;
  args : list pyval;
  kwargs : list (string * pyval)
}.

Section StateAccess.
Context `{PyClasses}.

Definition _state_getter (state key : pyval) : outcome pyval :=
  getattr state key.

Definition _state_setter (state key value : pyval) : outcome pyval :=
  if is_dataclass state then replace state key value
  else Raise AssertionError.

End StateAccess.

Module SetRequest.

Record t : Type := {
  operation : Operation;
  field : pyval
}.

Section Call.
Context `{PyClasses}.

(** [SetRequest.__call__]: the arguments of [_state_setter] are evaluated
    first, so the operation runs before the setter's assertion. *)
Definition call (self : t) (state : pyval) : outcome pyval :=
  obind (if truthy (field self) then _state_getter state (field self)
         else Ok state)
    (fun target =>
       obind (op (operation self) target
                 (args (operation self)) (kwargs (operation self)))
         (fun value => _state_setter state (field self) value)).

End Call.
End SetRequest.

(** An [asyncio.Future]: pending until a result or an exception is set. *)
Inductive future_state : Type :=
| Pending
| Finished (result : pyval)
| Failed (e : exn).

Module ExecuteRequest.

(** [reply_to] is the handle of the future, when there is one. *)
Record t : Type := {
  operation : Operation;
  field : pyval;
  reply_to : option nat
}.

End ExecuteRequest.

Inductive request : Type :=
| Set_ (r : SetRequest.t)
| Execute (r : ExecuteRequest.t).

(** A detached task [request(state)] made by [consume]. *)
Record task : Type := {
  task_request : ExecuteRequest.t;
  task_state : pyval
}.

(** What the actor's coroutines share: the mailbox queue, the tasks handed
    to the event loop, and the futures (an absent handle is pending). *)
Record world : Type := {
  mailbox : list request;
  tasks : list task;
  futures : Frozendict.t nat future_state;
  next_future : nat
}.

Definition M (A : Type) : Type := world -> outcome A * world.

Definition ret {A : Type} (a : A) : M A := fun w => (Ok a, w).

Definition throw {A : Type} (e : exn) : M A := fun w => (Raise e, w).

Definition bind {A B : Type} (m : M A) (k : A -> M B) : M B :=
  fun w =>
    match m w with
    | (Ok a, w') => k a w'
    | (Raise e, w') => (Raise e, w')
    end.

Definition lift {A : Type} (o : outcome A) : M A := fun w => (o, w).

Declare Scope actor_scope.
Delimit Scope actor_scope with actor.
Notation "x <- m ;; k" := (bind m (fun x => k))
  (at level 61, m at next level, right associativity) : actor_scope.

Definition future_of (w : world) (fut : nat) : future_state :=
  Frozendict.get_default (futures w) fut Pending.

(** [Future.set_result]. *)
Definition set_result (fut : nat) (v : pyval) : M unit :=
  fun w =>
    match future_of w fut with
    | Pending =>
        (Ok tt, {| mailbox := mailbox w; tasks := tasks w;
                   futures := Frozendict.set (futures w) fut (Finished v);
                   next_future := next_future w |})
    | _ => (Raise InvalidStateError, w)
    end.

(** [asyncio.Future()]. *)
Definition new_future : M nat :=
  fun w =>
    (Ok (next_future w),
     {| mailbox := mailbox w; tasks := tasks w; futures := futures w;
        next_future := S (next_future w) |}).

(** [Queue.put_nowait] on the unbounded mailbox. *)
Definition put_nowait (r : request) : M unit :=
  fun w =>
    (Ok tt, {| mailbox := mailbox w ++ [r]; tasks := tasks w;
               futures := futures w; next_future := next_future w |}).

(** [await queue.get()]: on an empty queue the coroutine stays suspended,
    and the only thing that wakes it is the cancellation of its task. *)
Definition queue_get : M request :=
  fun w =>
    match mailbox w with
    | [] => (Raise CancelledError, w)
    | r :: rest =>
        (Ok r, {| mailbox := rest; tasks := tasks w; futures := futures w;
                  next_future := next_future w |})
    end.

(** [asyncio.create_task(request(state))]. *)
Definition create_task (t : task) : M unit :=
  fun w =>
    (Ok tt, {| mailbox := mailbox w; tasks := tasks w ++ [t];
               futures := futures w; next_future := next_future w |}).

Section Runtime.
Context `{PyClasses}.

(** [ExecuteRequest.__call__]: the operation runs as a task of its own; its
    result is awaited only when there is a reply future, and then an
    exception of the operation is re-raised by the [await]. *)
Definition ExecuteRequest_call (self : ExecuteRequest.t) (state : pyval) : M unit :=
  (target <- lift (if truthy (ExecuteRequest.field self)
                   then _state_getter state (ExecuteRequest.field self)
                   else Ok state) ;;
   let result := op (ExecuteRequest.operation self) target
                    (args (ExecuteRequest.operation self))
                    (kwargs (ExecuteRequest.operation self)) in
   match ExecuteRequest.reply_to self with
   | Some fut => v <- lift result ;; set_result fut v
   | None => ret tt
   end)%actor.

Definition run_task (t : task) : M unit :=
  ExecuteRequest_call (task_request t) (task_state t).

Definition consume (state : pyval) : M pyval :=
  (request <- queue_get ;;
   match request with
   | Set_ r =>
       result <- lift (SetRequest.call r state) ;;
       if truthy result then ret result else throw AssertionError
   | Execute r =>
       _ <- create_task {| task_request := r; task_state := state |} ;;
       ret state
   end)%actor.

End Runtime.

(** [coroutine_reduce] of common.py, with the extra arguments captured in
    [coro_func]. *)
Fixpoint coroutine_reduce {T : Type} (fuel : nat) (coro_func : T -> M T)
    (initial : T) (w : world) : option (outcome T * world) :=
  match fuel with
  | O => None
  | S fuel' =>
      match coro_func initial w with
      | (Ok result, w') => coroutine_reduce fuel' coro_func result w'
      | (Raise CancelledError, w') => Some (Ok initial, w')
      | (Raise e, w') => Some (Raise e, w')
      end
  end.

(** [execute(mailbox, field)(op, *args, **kwargs)]. *)
Definition execute (field : pyval)
    (f : pyval -> list pyval -> list (string * pyval) -> outcome pyval)
    (a : list pyval) (kw : list (string * pyval)) : M unit :=
  put_nowait (Execute {| ExecuteRequest.operation := {| op := f; args := a; kwargs := kw |};
                         ExecuteRequest.field := field;
                         ExecuteRequest.reply_to := None |}).

(** [execute_sync(mailbox, field)(op, *args, **kwargs)]. *)
Definition execute_sync (field : pyval)
    (f : pyval -> list pyval -> list (string * pyval) -> outcome pyval)
    (a : list pyval) (kw : list (string * pyval)) : M nat :=
  (result <- new_future ;;
   _ <- put_nowait (Execute {| ExecuteRequest.operation := {| op := f; args := a; kwargs := kw |};
                               ExecuteRequest.field := field;
                               ExecuteRequest.reply_to := Some result |}) ;;
   ret result)%actor.

(** [set_(mailbox, field)(op, *args, **kwargs)]. *)
Definition set_ (field : pyval)
    (f : pyval -> list pyval -> list (string * pyval) -> outcome pyval)
    (a : list pyval) (kw : list (string * pyval)) : M unit :=
  put_nowait (Set_ {| SetRequest.operation := {| op := f; args := a; kwargs := kw |};
                      SetRequest.field := field |}).

End Actor.

(** ** framework/game.py *)

Module Game.

Inductive SystemEvent : Type := INIT | EXIT | REFRESH | FRAME_NEXT.

(** The members of the enum, in definition order ([for event in SystemEvent]). *)
Definition SystemEvent_members : list SystemEvent :=
  [INIT; EXIT; REFRESH; FRAME_NEXT].

Definition UUID : Type := N.

(** [pygame.Rect]. *)
Record Rect : Type := {
  left : Z;
  top : Z;
  width : Z;
  height : Z
}.

(** [Rect.collidepoint]: the right and bottom edges are outside. *)
Definition collidepoint (r : Rect) (px py : Z) : bool :=
  ((left r <=? px) && (px <? left r + width r) &&
   (top r <=? py) && (py <? top r + height r))%Z.

Record Element : Type := {
  position : option Rect;
  id : UUID
}.

(** A key of a target map: the literal ["*"] or the id of an element. *)
Inductive target_key : Type :=
| Wildcard
| ElementId (i : UUID).

#[export] Instance target_key_EqDec : EqDec target_key.
Proof.
  intros a b. destruct a as [|i], b as [|j].
  - left. reflexivity.
  - right. discriminate.
  - right. discriminate.
  - destruct (N.eq_dec i j) as [E|E].
    + left. f_equal. exact E.
    + right. intros F. apply E. now inversion F.
Defined.

(** A key of the [events] mapping: a member of [SystemEvent], or a key of
    the application's own. *)
Inductive event_key : Type :=
| SystemKey (e : SystemEvent)
| CustomKey (name : string).

#[export] Instance SystemEvent_EqDec : EqDec SystemEvent.
Proof. intros a b. unfold EqDec in *. decide equality. Defined.

#[export] Instance event_key_EqDec : EqDec event_key.
Proof.
  intros a b. destruct a as [e|n], b as [e'|n'].
  - destruct (SystemEvent_EqDec e e') as [E|E].
    + left. f_equal. exact E.
    + right. intros F. apply E. now inversion F.
  - right. discriminate.
  - right. discriminate.
  - destruct (string_dec n n') as [E|E].
    + left. f_equal. exact E.
    + right. intros F. apply E. now inversion F.
Defined.

(** What [listener_add] is given as [target]: an instance of [Element] (or
    of a subclass), or any other Python value, [None] among them. *)
Inductive target_arg : Type :=
| TargetElement (e : Element)
| TargetValue (v : pyval).

(** The state of the [pygame.event] module that [custom_type] advances. *)
Record pygame : Type := {
  custom_event : Z
}.

Section Registry.
(** [callable] is the type of the listeners' callbacks; [NUMEVENTS] is
    pygame's bound on event types. *)
Context {callable : Type}.
Variable NUMEVENTS : Z.

Record Listener : Type := {
  event_type : Z;
  op : callable
}.

Definition target_map : Type := Frozendict.t target_key (list Listener).

Definition listeners_map : Type := Frozendict.t Z target_map.

Record Application : Type := {
  events : Frozendict.t event_key Z;
  listeners : listeners_map;
  elements : Frozendict.t UUID Element
}.

(** [pygame.event.custom_type()]: the next unused event type, or
    [pygame.error] when there is none left. *)
Definition custom_type (pg : pygame) : outcome Z * pygame :=
  if (custom_event pg <? NUMEVENTS)%Z
  then (Ok (custom_event pg), {| custom_event := custom_event pg + 1 |})
  else (Raise PygameError, pg).

Definition event_register (events : Frozendict.t event_key Z) (event : event_key)
    (pg : pygame) : outcome (Frozendict.t event_key Z) * pygame :=
  match custom_type pg with
  | (Ok tag, pg') => (Ok (Frozendict.set events event tag), pg')
  | (Raise e, pg') => (Raise e, pg')
  end.

Fixpoint event_register_each (members : list SystemEvent)
    (application : Application) (pg : pygame) : outcome Application * pygame :=
  match members with
  | [] => (Ok application, pg)
  | event :: rest =>
      match event_register (events application) (SystemKey event) pg with
      | (Ok events', pg') =>
          event_register_each rest
            {| events := events';
               listeners := listeners application;
               elements := elements application |} pg'
      | (Raise e, pg') => (Raise e, pg')
      end
  end.

Definition event_register_system (application : Application) (pg : pygame)
    : outcome Application * pygame :=
  event_register_each SystemEvent_members application pg.

(** The local function of [listeners_remove]. *)
Definition _delete_listeners (element : Element) (current : listeners_map)
    (incoming : Z * target_map) : outcome listeners_map :=
  let '(event, listeners) := incoming in
  match obind (Frozendict.delete listeners (ElementId (id element)))
              (fun deleted => Ok (Frozendict.set current event deleted)) with
  | Raise KeyError => Ok current
  | r => r
  end.

(** [functools.reduce(function, iterable, initial)]. *)
Fixpoint reduce {A B : Type} (function : A -> B -> outcome A) (iterable : list B)
    (initial : A) : outcome A :=
  match iterable with
  | [] => Ok initial
  | b :: rest => obind (function initial b) (fun a => reduce function rest a)
  end.

Definition listeners_remove (listeners : listeners_map) (element : Element)
    : outcome listeners_map :=
  reduce (_delete_listeners element) (Frozendict.items listeners) listeners.

Definition listener_add (listeners : listeners_map) (target : target_arg)
    (event_type : Z) (listener : callable) : outcome listeners_map :=
  obind (match target with
         | TargetElement e => Ok (ElementId (id e))
         | TargetValue PyNone => Ok Wildcard
         | TargetValue _ => Raise (Exception "Not supported")
         end)
    (fun key =>
       Ok (Frozendict.set listeners event_type
             (Frozendict.set
                (Frozendict.get_default listeners event_type Frozendict.empty)
                key
                (Frozendict.get_default
                   (Frozendict.get_default listeners event_type Frozendict.empty)
                   key [] ++
                 [{| event_type := event_type; op := listener |}])))).

End Registry.

Arguments Listener : clear implicits.
Arguments Application : clear implicits.
Arguments target_map : clear implicits.
Arguments listeners_map : clear implicits.

End Game.

(** ** framework/event.py *)

Module Event.
Import Game.

(** A [pygame.event.Event] of a pointer button: its type and position. *)
Record Event : Type := {
  type : Z;
  pos : Z * Z
}.

Section Dispatch.
Context {callable : Type}.

(** The second argument a listener is called with. *)
Inductive snapshot : Type :=
| OfApplication (application : Application callable)
| OfElement (element : Element).

(** A task [listener.op(event, target, mailbox, logger)] handed to the
    event loop. *)
Record invocation : Type := {
  listener : Listener callable;
  event : Event;
  target : snapshot
}.

(** A [for] loop whose body creates tasks: the tasks created before an
    exception stay created. *)
Fixpoint for_each {X : Type} (xs : list X)
    (body : X -> list invocation * outcome unit) : list invocation * outcome unit :=
  match xs with
  | [] => ([], Ok tt)
  | x :: rest =>
      match body x with
      | (created, Ok _) =>
          let '(more, r) := for_each rest body in (created ++ more, r)
      | (created, Raise e) => (created, Raise e)
      end
  end.

Definition check_is_collide (element : Element) (event : Event) : outcome bool :=
  match position element with
  | Some rect => let '(mouse_x, mouse_y) := pos event in
                 Ok (collidepoint rect mouse_x mouse_y)
  | None => Raise AssertionError
  end.

(** The call [listener.op(event, application.elements[i], ...)]: the
    subscript is evaluated first. *)
Definition call_with_element (application : Application callable) (event : Event)
    (listener : Listener callable) (i : UUID) : list invocation * outcome unit :=
  match Frozendict.getitem (elements application) i with
  | Ok element =>
      ([{| listener := listener; event := event; target := OfElement element |}],
       Ok tt)
  | Raise e => ([], Raise e)
  end.

Definition dispatch_to_target (application : Application callable) (event : Event)
    (target : option UUID) : list invocation * outcome unit :=
  match target with
  | Some target_id =>
      for_each
        (Frozendict.get_default
           (Frozendict.get_default (listeners application) (type event)
              Frozendict.empty)
           (ElementId target_id) [])
        (fun listener => call_with_element application event listener target_id)
  | None =>
      for_each
        (Frozendict.items
           (Frozendict.get_default (listeners application) (type event)
              Frozendict.empty))
        (fun '(elem, listeners) =>
           for_each listeners
             (fun listener =>
                match elem with
                | Wildcard =>
                    ([{| listener := listener; event := event;
                         target := OfApplication application |}], Ok tt)
                | ElementId i => call_with_element application event listener i
                end))
  end.

(** The loop of [dispatch_mouse]: the targets whose dispatch it hands to
    the task group, or the exception that ends the body. *)
Fixpoint hit_targets (application : Application callable) (event : Event)
    (element_ids : list target_key) : outcome (list (option UUID)) :=
  match element_ids with
  | [] => Ok []
  | Wildcard :: rest => hit_targets application event rest
  | ElementId element_id :: rest =>
      obind (Frozendict.getitem (elements application) element_id) (fun element =>
      obind (check_is_collide element event) (fun hit =>
      obind (hit_targets application event rest) (fun more =>
      Ok (if hit then Some element_id :: more else more))))
  end.

(** The children of the task group run one after the other in creation
    order, each to its end; their exceptions are gathered. *)
Fixpoint run_group (application : Application callable) (event : Event)
    (children : list (option UUID)) : list invocation * list exn :=
  match children with
  | [] => ([], [])
  | child :: rest =>
      let '(created, r) := dispatch_to_target application event child in
      let '(more, errors) := run_group application event rest in
      (created ++ more,
       match r with
       | Ok _ => errors
       | Raise e => e :: errors
       end)
  end.

(** [dispatch_mouse]: when the body of the [async with] raises, the
    children are cancelled before their first step; otherwise they all
    run. *)
Definition dispatch_mouse (application : Application callable) (event : Event)
    : list invocation * outcome unit :=
  let listeners :=
    Frozendict.get_default (listeners application) (type event) Frozendict.empty in
  match hit_targets application event (Frozendict.keys listeners) with
  | Raise e => ([], Raise (ExceptionGroup [e]))
  | Ok hits =>
      let '(created, errors) := run_group application event (None :: hits) in
      (created,
       match errors with
       | [] => Ok tt
       | _ => Raise (ExceptionGroup errors)
       end)
  end.

End Dispatch.

Arguments snapshot : clear implicits.
Arguments invocation : clear implicits.

End Event.

(** ** The consume loop as a fold

    The branch of [consume] for a MutateRequest and the loop of
    [coroutine_reduce] over [consume], written as functions of the State
    alone (lemmas [consume_Set] and [loop_is_fold] of Part II relate them
    to the code above). *)

Module Loop.
Import Actor.

Section Mailbox.
Context `{PyClasses}.

(** [result = await request(state); assert result]. *)
Definition mutate (state : pyval) (m : SetRequest.t) : outcome pyval :=
  obind (SetRequest.call m state)
    (fun result => if truthy result then Ok result else Raise AssertionError).

(** The loop over MutateRequests alone: an exception other than a
    cancellation ends it and propagates; a cancellation ends it with the
    State reached. *)
Fixpoint apply_in_order (state : pyval) (ms : list SetRequest.t) : outcome pyval :=
  match ms with
  | [] => Ok state
  | m :: rest =>
      match mutate state m with
      | Ok state' => apply_in_order state' rest
      | Raise CancelledError => Ok state
      | Raise e => Raise e
      end
  end.

End Mailbox.
End Loop.

(** ** The specification's vocabulary

    Definitions that follow the words of the specification; the theorems of
    Part II compare the code above with them. *)

Module Spec.
Import Actor Game.

Section Mailbox.

(** The MutateRequests of a request stream, in enqueue order. *)
Definition mutations (requests : list request) : list SetRequest.t :=
  flat_map (fun r => match r with
                     | Set_ m => [m]
                     | Execute _ => []
                     end) requests.

(** How applying one MutateRequest to a State ends, in the specification's
    terms: a new State; a failure of the operation; a contract violation
    (the operation produced null); or no answer, when the request names a
    field the State does not have. *)
Inductive applied : Type :=
| Produced (state : pyval)
| OperationFailure (e : exn)
| ContractViolation
| Unspecified.

(** The request gives a target field. *)
Definition names_field (m : SetRequest.t) : bool :=
  match SetRequest.field m with
  | PyStr name => negb (name =? "")%string
  | _ => false
  end.

(** The operation's result as the replacement value: it must be non-null. *)
Definition replacement (result : outcome pyval) (install : pyval -> pyval) : applied :=
  match result with
  | Ok PyNone => ContractViolation
  | Ok value => Produced (install value)
  | Raise e => OperationFailure e
  end.

(** Processing a MutateRequest: invoke the operation against the State's
    target field when one is given, else against the whole State, and
    produce a new State with that field replaced by the result, or the
    whole State replaced by it when no field is given. *)
Definition apply_mutation (state : pyval) (m : SetRequest.t) : applied :=
  let operation := SetRequest.operation m in
  match SetRequest.field m with
  | PyNone =>
      replacement (Actor.op operation state (args operation) (kwargs operation))
        (fun value => value)
  | PyStr name =>
      match state with
      | PyData cls fields =>
          match Frozendict.get fields name with
          | Some current =>
              replacement (Actor.op operation current (args operation) (kwargs operation))
                (fun value => PyData cls (Frozendict.set fields name value))
          | None => Unspecified
          end
      | _ => Unspecified
      end
  | _ => Unspecified
  end.

(** The State obtained by applying MutateRequests sequentially, in order,
    seeded by [state]. *)
Fixpoint apply_sequentially (state : pyval) (ms : list SetRequest.t) : applied :=
  match ms with
  | [] => Produced state
  | m :: rest =>
      match apply_mutation state m with
      | Produced state' => apply_sequentially state' rest
      | stopped => stopped
      end
  end.

End Mailbox.

Section Registry.
Context {callable : Type}.

(** The ordered listener sequence for [(event_type, target_key)]. *)
Definition listeners_for (listeners : listeners_map callable) (event_type : Z)
    (key : target_key) : list (Listener callable) :=
  Frozendict.get_default
    (Frozendict.get_default listeners event_type Frozendict.empty) key [].

(** The element's identity is registered under no event type. *)
Definition never_registered (listeners : listeners_map callable)
    (element : Element) : Prop :=
  forall event targets,
    In (event, targets) (Frozendict.items listeners) ->
    Frozendict.get targets (ElementId (id element)) = None.

(** A registry and each of its target maps have distinct keys. *)
Definition registry_wf (listeners : listeners_map callable) : Prop :=
  Frozendict.wf listeners /\
  forall event targets,
    In (event, targets) (Frozendict.items listeners) -> Frozendict.wf targets.

(** An entry of the registry with the element's identity key removed from
    its target map. *)
Definition without (element : Element) (entry : Z * target_map callable)
    : Z * target_map callable :=
  (fst entry, Frozendict.remove (snd entry) (ElementId (id element))).

(** The pointer coordinate of [event] lies in the bounds of element [i]. *)
Definition hit (application : Application callable) (event : Event.Event)
    (i : UUID) : bool :=
  match Frozendict.get (elements application) i with
  | Some element =>
      match position element with
      | Some rect => collidepoint rect (fst (Event.pos event)) (snd (Event.pos event))
      | None => false
      end
  | None => false
  end.

(** Dispatch completeness, as the specification words it: a listener fires
    exactly when it belongs to the wildcard target or to an element whose
    bounds contain the pointer coordinate. *)
Definition should_fire (application : Application callable) (event : Event.Event)
    (key : target_key) : bool :=
  match key with
  | Wildcard => true
  | ElementId i => hit application event i
  end.

End Registry.
End Spec.

(** ** Concrete inputs used by the examples of Part II *)

Module Fixtures.
Import Game.

(** Three elements; only [elem_a]'s bounds contain the point (5, 5). *)
Definition elem_a : Element :=
  {| position := Some {| left := 0; top := 0; width := 10; height := 10 |};
     id := 1%N |}.

Definition elem_b : Element :=
  {| position := Some {| left := 100; top := 100; width := 10; height := 10 |};
     id := 2%N |}.

Definition elem_c : Element :=
  {| position := Some {| left := 200; top := 200; width := 10; height := 10 |};
     id := 3%N |}.

(** [pygame.MOUSEBUTTONDOWN]. *)
Definition MOUSEBUTTONDOWN : Z := 1025.

Definition on (name : string) : Listener string :=
  {| event_type := MOUSEBUTTONDOWN; op := name |}.

(** One listener on each element and one on the wildcard target. *)
Definition click_application : Application string :=
  {| events := Frozendict.empty;
     listeners :=
       [(MOUSEBUTTONDOWN,
         [(ElementId 1%N, [on "on_a"]);
          (ElementId 2%N, [on "on_b"]);
          (ElementId 3%N, [on "on_c"]);
          (Wildcard, [on "on_any"])])];
     elements := [(1%N, elem_a); (2%N, elem_b); (3%N, elem_c)] |}.

Definition click : Event.Event :=
  {| Event.type := MOUSEBUTTONDOWN; Event.pos := (5, 5)%Z |}.

(** A State: a dataclass instance with three mapping fields. *)
Definition app_state : pyval :=
  PyData "Application"
    [("events", PyDict []);
     ("elements", PyDict [(PyInt 1, PyStr "a")]);
     ("data", PyDict [(PyStr "score", PyInt 7)])]%string.

(** Operations: one that returns a given value ([returns PyNone] forgets
    to return), one that returns its target, one that raises. *)
Definition returns (v : pyval) : Actor.Operation :=
  {| Actor.op := fun _ _ _ => Ok v; Actor.args := []; Actor.kwargs := [] |}.

Definition returns_target : Actor.Operation :=
  {| Actor.op := fun target _ _ => Ok target; Actor.args := []; Actor.kwargs := [] |}.

Definition raises : Actor.Operation :=
  {| Actor.op := fun _ _ _ => Raise (Exception "boom");
     Actor.args := []; Actor.kwargs := [] |}.

Definition mutate_field (o : Actor.Operation) (name : string) : Actor.request :=
  Actor.Set_ {| Actor.SetRequest.operation := o;
                Actor.SetRequest.field := PyStr name |}.

(** The request [execute_sync(mailbox, "data")(op)] enqueues when the
    future it makes is the first one. *)
Definition failing_invoke : Actor.ExecuteRequest.t :=
  {| Actor.ExecuteRequest.operation := raises;
     Actor.ExecuteRequest.field := PyStr "data";
     Actor.ExecuteRequest.reply_to := Some 0 |}.

(** A class environment in which the dataclass [Bag] defines [__len__] as
    the length of its field [items]. *)
Definition bag_truth : PyClasses :=
  fun cls fields =>
    if (cls =? "Bag")%string
    then match Frozendict.get fields "items"%string with
         | Some (PyTuple elts) => negb (List.length elts =? 0)%nat
         | _ => true
         end
    else true.

Definition start : Actor.world :=
  {| Actor.mailbox := []; Actor.tasks := []; Actor.futures := Frozendict.empty;
     Actor.next_future := 0 |}.

End Fixtures.

(** ** The rest of common.py, game.py and event.py *)

Module Common.
Import Actor.

(** [coroutine_loop] of common.py, with the arguments captured in
    [coro_func]. *)
Fixpoint coroutine_loop (fuel : nat) (coro_func : M unit) (w : world)
    : option (outcome unit * world) :=
  match fuel with
  | O => None
  | S fuel' =>
      match coro_func w with
      | (Ok _, w') => coroutine_loop fuel' coro_func w'
      | (Raise CancelledError, w') => Some (Ok tt, w')
      | (Raise e, w') => Some (Raise e, w')
      end
  end.

End Common.

Module GameOps.
Import Game.

(** How a call of [listener_add_list] can end without a value: an exception
    of [listener_add], or the [UnboundLocalError] of returning the local
    variable that no iteration assigned. *)
Inductive raised : Type :=
| Raised (e : exn)
| UnboundLocalError.

(** An event handed to [pygame.event.post]: [Event(event_type)], or
    [Event(event_type, __target__=target)]. *)
Record posted : Type := {
  posted_type : Z;
  posted_target : option UUID
}.

Section Ops.
Context {callable : Type}.

Definition element_remove (elements : Frozendict.t UUID Element) (element : Element)
    : outcome (Frozendict.t UUID Element) :=
  match Frozendict.delete elements (id element) with
  | Raise KeyError => Ok elements
  | r => r
  end.

Definition element_update (elements : Frozendict.t UUID Element) (element : Element)
    : outcome (Frozendict.t UUID Element) :=
  Ok (Frozendict.set elements (id element) element).

(** The loop of [listener_add_list]; [application] is the local variable,
    [None] while unassigned.  Every iteration starts from [listeners]. *)
Fixpoint listener_add_list_loop (listeners : listeners_map callable)
    (target : target_arg) (listeners_new : list (Z * callable))
    (application : option (listeners_map callable))
    : outcome (option (listeners_map callable)) :=
  match listeners_new with
  | [] => Ok application
  | (event_type, listener) :: rest =>
      obind (listener_add listeners target event_type listener)
        (fun added => listener_add_list_loop listeners target rest (Some added))
  end.

Definition listener_add_list (listeners : listeners_map callable)
    (target : target_arg) (listeners_new : list (Z * callable))
    : listeners_map callable + raised :=
  match listener_add_list_loop listeners target listeners_new None with
  | Ok (Some application) => inl application
  | Ok None => inr UnboundLocalError
  | Raise e => inr (Raised e)
  end.

End Ops.

Section Post.
(** [queue] is the state of pygame's event queue and [post] is
    [pygame.event.post] on it. *)
Context {queue : Type}.
Variable post : posted -> queue -> outcome bool * queue.

Definition event_post (events : Frozendict.t event_key Z) (event : event_key)
    (target : option UUID) (q : queue) : outcome unit * queue :=
  match Frozendict.get events event with
  | Some event_type =>
      if (event_type =? 0)%Z then (Ok tt, q)
      else
        let '(r, q') :=
          post {| posted_type := event_type; posted_target := target |} q in
        (obind r (fun _ => Ok tt), q')
  | None => (Ok tt, q)
  end.

End Post.

Definition application_init {callable : Type} (NUMEVENTS : Z)
    (application : Application callable) (pg : pygame)
    : outcome (Application callable) * pygame :=
  event_register_system NUMEVENTS application pg.

End GameOps.

Module Poll.
Import Actor.

(** An event returned by [pygame.event.get()]: its type, the value of its
    attribute [__target__] when it has one, and the object itself as it is
    passed on. *)
Record RawEvent : Type := {
  type : Z;
  __target__ : option pyval;
  reference : pyval
}.

(** What [process] refers to without looking inside: pygame's constants,
    the coroutine functions it schedules, [SystemEvent.REFRESH], and the
    mailbox and the logger as arguments. *)
Record names : Type := {
  QUIT : Z;
  MOUSEBUTTONDOWN : Z;
  USEREVENT : Z;
  event_post : pyval -> list pyval -> list (string * pyval) -> outcome pyval;
  event_quit : pyval -> list pyval -> list (string * pyval) -> outcome pyval;
  dispatch_mouse : pyval -> list pyval -> list (string * pyval) -> outcome pyval;
  dispatch_to_target : pyval -> list pyval -> list (string * pyval) -> outcome pyval;
  REFRESH : pyval;
  mailbox_ref : pyval;
  logger : pyval
}.

Section Process.
Variable py : names.

(** The [match event.type] of [process]. *)
Definition route (event : RawEvent) : M unit :=
  if (type event =? QUIT py)%Z then
    execute (PyStr "exit_event") (event_quit py) [] []
  else if (type event =? MOUSEBUTTONDOWN py)%Z then
    execute PyNone (dispatch_mouse py)
      [reference event; mailbox_ref py; logger py] []
  else
    match __target__ event with
    | Some target =>
        if (USEREVENT py <=? type event)%Z then
          execute PyNone (dispatch_to_target py)
            [reference event; target; mailbox_ref py; logger py] []
        else ret tt
    | None =>
        if (USEREVENT py <=? type event)%Z then
          execute PyNone (dispatch_to_target py)
            [reference event; PyNone; mailbox_ref py; logger py] []
        else ret tt
    end.

Fixpoint route_each (events : list RawEvent) : M unit :=
  match events with
  | [] => ret tt
  | event :: rest => bind (route event) (fun _ => route_each rest)
  end.

(** [process], given what [pygame.event.get()] returned, up to its last
    line: the result is the future that [await sync_post] then waits for. *)
Definition process (events : list RawEvent) : M nat :=
  (sync_post <- execute_sync (PyStr "events") (event_post py) [REFRESH py] [] ;;
   _ <- route_each events ;;
   ret sync_post)%actor.

(** The events [process] turns into a request. *)
Definition routed (event : RawEvent) : bool :=
  ((type event =? QUIT py) || (type event =? MOUSEBUTTONDOWN py) ||
   (USEREVENT py <=? type event))%Z.

End Process.
End Poll.

Module Spec2.
Import Actor Loop Spec.

Section Mailbox.
Context `{PyClasses}.

(** MutateRequests applied in order, all of them succeeding. *)
Fixpoint fold_mutations (state : pyval) (ms : list SetRequest.t) : outcome pyval :=
  match ms with
  | [] => Ok state
  | m :: rest => obind (mutate state m) (fun state' => fold_mutations state' rest)
  end.

(** The InvokeRequests of a request stream. *)
Definition invocations (requests : list request) : list ExecuteRequest.t :=
  flat_map (fun r => match r with
                     | Set_ _ => []
                     | Execute x => [x]
                     end) requests.

End Mailbox.
End Spec2.

Module Fixtures2.
Import Game GameOps.

(** [pygame.event.post] on an event queue that is a list and never full. *)
Definition post_to_list (e : posted) (q : list posted) : outcome bool * list posted :=
  (Ok true, q ++ [e]).

(** The names of [process] with pygame's values for the constants and
    operations that only name themselves. *)
Definition pygame_names : Poll.names :=
  {| Poll.QUIT := 256;
     Poll.MOUSEBUTTONDOWN := 1025;
     Poll.USEREVENT := 32866;
     Poll.event_post := fun _ _ _ => Ok PyNone;
     Poll.event_quit := fun _ _ _ => Ok PyNone;
     Poll.dispatch_mouse := fun _ _ _ => Ok PyNone;
     Poll.dispatch_to_target := fun _ _ _ => Ok PyNone;
     Poll.REFRESH := PyStr "SystemEvent.REFRESH";
     Poll.mailbox_ref := PyStr "mailbox";
     Poll.logger := PyStr "logger" |}.

(** One poll: a key press (type 768), a click, a frame event, a quit. *)
Definition polled : list Poll.RawEvent :=
  [ {| Poll.type := 768; Poll.__target__ := None; Poll.reference := PyStr "keydown" |};
    {| Poll.type := 1025; Poll.__target__ := None; Poll.reference := PyStr "click" |};
    {| Poll.type := 32870; Poll.__target__ := Some (PyInt 1);
       Poll.reference := PyStr "frame" |};
    {| Poll.type := 256; Poll.__target__ := None; Poll.reference := PyStr "quit" |} ].

End Fixtures2.

Module FixturesLoop.

(** An operation that depends on its target: it adds one to an integer. *)
Definition increment : Actor.Operation :=
  {| Actor.op := fun target _ _ =>
                   match target with
                   | PyInt n => Ok (PyInt (n + 1))
                   | _ => Raise TypeError
                   end;
     Actor.args := []; Actor.kwargs := [] |}.

Definition counter_state : pyval :=
  PyData "Counter" [("count", PyInt 0); ("label", PyStr "clicks")]%string.

Definition fresh_state : pyval :=
  PyData "Counter" [("count", PyInt 100); ("label", PyStr "reset")]%string.

Definition on_field (o : Actor.Operation) (field : pyval) : Actor.SetRequest.t :=
  {| Actor.SetRequest.operation := o; Actor.SetRequest.field := field |}.

(** Two increments of [count] with an InvokeRequest between them. *)
Definition counting : list Actor.request :=
  [Actor.Set_ (on_field increment (PyStr "count"));
   Actor.Execute Fixtures.failing_invoke;
   Actor.Set_ (on_field increment (PyStr "count"))].

End FixturesLoop.

(** * Part II: lemmas and theorems *)

(** ** frozendict *)

Section FrozendictFacts.
Context {K V : Type} `{EqDec K}.
Implicit Types (d : Frozendict.t K V) (k : K) (v : V).

Lemma get_set_same d k v : Frozendict.get (Frozendict.set d k v) k = Some v.
Proof.
  induction d as [|[k' v'] d IH]; simpl.
  - destruct (eq_dec k k); congruence.
  - destruct (eq_dec k k') as [E|E]; simpl.
    + destruct (eq_dec k k'); congruence.
    + destruct (eq_dec k k'); congruence.
Qed.

Lemma get_set_other d k k' v :
  k' <> k -> Frozendict.get (Frozendict.set d k v) k' = Frozendict.get d k'.
Proof.
  intros N. induction d as [|[k0 v0] d IH]; simpl.
  - destruct (eq_dec k' k); congruence.
  - destruct (eq_dec k k0) as [E|E]; simpl.
    + subst k0. destruct (eq_dec k' k); congruence.
    + destruct (eq_dec k' k0); congruence.
Qed.

Lemma get_None_not_In d k :
  Frozendict.get d k = None <-> ~ In k (Frozendict.keys d).
Proof.
  induction d as [|[k0 v0] d IH]; simpl.
  - tauto.
  - destruct (eq_dec k k0) as [E|E].
    + subst. split; [discriminate | intros N; exfalso; apply N; now left].
    + rewrite IH. split; intros N; [intros [F|F]; congruence | tauto].
Qed.

Lemma get_In d k v : Frozendict.get d k = Some v -> In (k, v) d.
Proof.
  induction d as [|[k0 v0] d IH]; simpl; [discriminate|].
  destruct (eq_dec k k0) as [E|E].
  - intros [= ->]. subst. now left.
  - intros G. right. now apply IH.
Qed.

Lemma set_absent d k v :
  Frozendict.get d k = None -> Frozendict.set d k v = d ++ [(k, v)].
Proof.
  induction d as [|[k0 v0] d IH]; simpl; [reflexivity|].
  destruct (eq_dec k k0) as [E|E]; [discriminate|].
  intros G. now rewrite IH.
Qed.

Lemma remove_absent d k :
  Frozendict.get d k = None -> Frozendict.remove d k = d.
Proof.
  induction d as [|[k0 v0] d IH]; simpl; [reflexivity|].
  destruct (eq_dec k k0) as [E|E]; [discriminate|].
  intros G. now rewrite IH.
Qed.

Lemma get_remove_other d k k' :
  k' <> k -> Frozendict.get (Frozendict.remove d k) k' = Frozendict.get d k'.
Proof.
  intros N. induction d as [|[k0 v0] d IH]; simpl; [reflexivity|].
  destruct (eq_dec k k0) as [E|E]; simpl.
  - subst. destruct (eq_dec k' k0); congruence.
  - destruct (eq_dec k' k0); congruence.
Qed.

Lemma get_remove_same d k :
  Frozendict.wf d -> Frozendict.get (Frozendict.remove d k) k = None.
Proof.
  unfold Frozendict.wf. induction d as [|[k0 v0] d IH]; simpl; [reflexivity|].
  intros ND. inversion ND as [|? ? NI ND']; subst.
  destruct (eq_dec k k0) as [E|E]; simpl.
  - subst. now apply get_None_not_In.
  - destruct (eq_dec k k0); [congruence|]. now apply IH.
Qed.

(** [set] reaches a binding that sits behind bindings of other keys. *)
Lemma set_behind (front back : Frozendict.t K V) k v v' :
  ~ In k (Frozendict.keys front) ->
  Frozendict.set (front ++ (k, v) :: back) k v' = front ++ (k, v') :: back.
Proof.
  induction front as [|[k0 v0] front IH]; simpl; intros NI.
  - destruct (eq_dec k k); congruence.
  - destruct (eq_dec k k0) as [E|E]; [exfalso; apply NI; now left|].
    rewrite IH; [reflexivity | tauto].
Qed.

End FrozendictFacts.

(** ** The event registry (game.py) *)

Section RegistryFacts.
Import Game Spec.
Context {callable : Type}.
Implicit Types (listeners : listeners_map callable) (element : Element).

Lemma delete_listeners_step element (current : listeners_map callable) event
    (targets : target_map callable) :
  _delete_listeners element current (event, targets) =
  Ok (match Frozendict.get targets (ElementId (id element)) with
      | Some _ =>
          Frozendict.set current event
            (Frozendict.remove targets (ElementId (id element)))
      | None => current
      end).
Proof.
  unfold _delete_listeners, Frozendict.delete.
  destruct (Frozendict.get targets (ElementId (id element))); reflexivity.
Qed.

Lemma keys_without element (entries : listeners_map callable) :
  Frozendict.keys (map (without element) entries) = Frozendict.keys entries.
Proof.
  unfold Frozendict.keys. rewrite map_map. reflexivity.
Qed.

(** The fold of [listeners_remove], with the part of the registry already
    visited in [visited]. *)
Lemma reduce_delete_listeners element (rest visited : listeners_map callable) :
  NoDup (Frozendict.keys (visited ++ rest)) ->
  reduce (_delete_listeners element) rest (map (without element) visited ++ rest) =
  Ok (map (without element) (visited ++ rest)).
Proof.
  revert visited. induction rest as [|[event targets] rest IH]; intros visited ND.
  - simpl. now rewrite !app_nil_r.
  - cbn [reduce]. rewrite delete_listeners_step.
    assert (NI : ~ In event (Frozendict.keys (map (without element) visited))).
    { rewrite keys_without. unfold Frozendict.keys in *.
      rewrite map_app in ND. simpl in ND.
      apply NoDup_remove_2 in ND. intros I. apply ND.
      apply in_or_app. now left. }
    assert (Step :
      match Frozendict.get targets (ElementId (id element)) with
      | Some _ =>
          Frozendict.set (map (without element) visited ++ (event, targets) :: rest)
            event (Frozendict.remove targets (ElementId (id element)))
      | None => map (without element) visited ++ (event, targets) :: rest
      end = map (without element) (visited ++ [(event, targets)]) ++ rest).
    { rewrite map_app, <- app_assoc. simpl.
      change (without element (event, targets))
        with (event, Frozendict.remove targets (ElementId (id element))).
      destruct (Frozendict.get targets (ElementId (id element))) eqn:G.
      - now apply set_behind.
      - now rewrite (remove_absent _ _ G). }
    rewrite Step. simpl obind.
    rewrite IH; rewrite <- app_assoc; [reflexivity | exact ND].
Qed.

Lemma reduce_never_registered element (entries current : listeners_map callable) :
  (forall event targets, In (event, targets) entries ->
     Frozendict.get targets (ElementId (id element)) = None) ->
  reduce (_delete_listeners element) entries current = Ok current.
Proof.
  induction entries as [|[event targets] entries IH]; intros A; [reflexivity|].
  cbn [reduce]. rewrite delete_listeners_step.
  rewrite (A event targets) by now left. simpl.
  apply IH. intros e t I. apply (A e). now right.
Qed.

Lemma get_without element listeners event :
  Frozendict.get (map (without element) listeners) event =
  option_map (fun targets => Frozendict.remove targets (ElementId (id element)))
    (Frozendict.get listeners event).
Proof.
  induction listeners as [|[e t] listeners IH]; simpl; [reflexivity|].
  destruct (eq_dec event e); [reflexivity | exact IH].
Qed.

(** C9: [listeners_remove] always returns a registry; for an element whose
    identity is registered under no event type the registry is the input
    itself; and in general it is the input with the element's identity key
    removed from the target map of every event type, every other key
    keeping its listeners. *)
Theorem listeners_remove_spec :
  forall listeners element,
  exists listeners',
    listeners_remove listeners element = Ok listeners' /\
    (never_registered listeners element -> listeners' = listeners) /\
    (Frozendict.wf listeners ->
       listeners' = map (without element) listeners /\
       Frozendict.keys listeners' = Frozendict.keys listeners /\
       forall event key,
         key <> ElementId (id element) ->
         listeners_for listeners' event key = listeners_for listeners event key) /\
    (registry_wf listeners ->
       forall event targets,
         Frozendict.get listeners' event = Some targets ->
         Frozendict.get targets (ElementId (id element)) = None).
Proof.
  intros listeners element.
  destruct (reduce (_delete_listeners element) listeners listeners) as [l'|e] eqn:R.
  2:{ exfalso. revert R. generalize listeners at 2.
      induction listeners as [|[event targets] rest IH]; intros current.
      - discriminate.
      - cbn [reduce]. rewrite delete_listeners_step. cbn [obind]. apply IH. }
  exists l'. unfold listeners_remove, Frozendict.items.
  assert (General : Frozendict.wf listeners -> l' = map (without element) listeners).
  { intros W. pose proof (reduce_delete_listeners element listeners [] W) as Q.
    simpl in Q. congruence. }
  repeat split.
  - exact R.
  - intros Never. rewrite reduce_never_registered in R by exact Never. congruence.
  - now apply General.
  - rewrite (General H). apply keys_without.
  - intros event key Ne. rewrite (General H). unfold listeners_for.
    unfold Frozendict.get_default at 2 4. rewrite get_without.
    destruct (Frozendict.get listeners event) as [targets|]; simpl; [|reflexivity].
    unfold Frozendict.get_default. now rewrite get_remove_other.
  - intros [W Inner] event targets G. rewrite (General W), get_without in G.
    destruct (Frozendict.get listeners event) as [old|] eqn:O; [|discriminate].
    simpl in G. injection G as <-. apply get_remove_same.
    apply (Inner event). now apply get_In.
Qed.

(** C8: [listener_add] puts the callback at the end of the listener
    sequence of [(event_type, key)], the sequence registered before staying
    in front of it in its order, and leaves every other sequence as it was;
    the key is the element's identity for an [Element] and the wildcard for
    [None]; any other target raises instead of registering. *)
Theorem listener_add_appends :
  forall listeners event_type (listener : callable),
    (forall target key,
       target = TargetValue PyNone /\ key = Wildcard \/
       (exists e, target = TargetElement e /\ key = ElementId (id e)) ->
       exists listeners',
         listener_add listeners target event_type listener = Ok listeners' /\
         listeners_for listeners' event_type key =
           listeners_for listeners event_type key ++
           [{| Game.event_type := event_type; Game.op := listener |}] /\
         forall event_type' key',
           (event_type', key') <> (event_type, key) ->
           listeners_for listeners' event_type' key' =
           listeners_for listeners event_type' key') /\
    (forall v, v <> PyNone ->
       listener_add listeners (TargetValue v) event_type listener =
       Raise (Exception "Not supported")).
Proof.
  intros listeners event_type listener. split.
  - intros target key Target.
    assert (E : listener_add listeners target event_type listener =
                Ok (Frozendict.set listeners event_type
                      (Frozendict.set
                         (Frozendict.get_default listeners event_type Frozendict.empty)
                         key
                         (listeners_for listeners event_type key ++
                          [{| Game.event_type := event_type; Game.op := listener |}])))).
    { destruct Target as [[-> ->]|[e [-> ->]]]; reflexivity. }
    eexists. split; [exact E|]. split.
    + unfold listeners_for at 1. unfold Frozendict.get_default at 2.
      rewrite get_set_same. unfold Frozendict.get_default at 1.
      now rewrite get_set_same.
    + intros event_type' key' Ne. unfold listeners_for at 1.
      unfold Frozendict.get_default at 2.
      destruct (Z.eq_dec event_type' event_type) as [->|Nt].
      * rewrite get_set_same. unfold Frozendict.get_default at 1.
        rewrite get_set_other by congruence. reflexivity.
      * rewrite get_set_other by exact Nt. reflexivity.
  - intros v Nv. destruct v; try reflexivity. congruence.
Qed.

(** [custom_type] hands out the counter and advances it. *)
Lemma custom_type_next NUMEVENTS (pg : pygame) :
  (custom_event pg < NUMEVENTS)%Z ->
  custom_type NUMEVENTS pg =
  (Ok (custom_event pg), {| custom_event := custom_event pg + 1 |}).
Proof.
  intros L. unfold custom_type.
  destruct (Z.ltb_spec (custom_event pg) NUMEVENTS); [reflexivity | lia].
Qed.

(** C3, as amended: while pygame has event types left, [event_register]
    allocates the next unused tag and binds the key to it whether or not
    the key is present, so a present key gets a new tag; the other keys
    keep theirs, and the tag is fresh: no key of a registry whose tags all
    came from earlier allocations has it. *)
Theorem event_register_rebinds :
  forall NUMEVENTS (events : Frozendict.t event_key Z) (event : event_key)
         (pg : pygame),
    (custom_event pg < NUMEVENTS)%Z ->
    exists events',
      event_register NUMEVENTS events event pg =
        (Ok events', {| custom_event := custom_event pg + 1 |}) /\
      Frozendict.get events' event = Some (custom_event pg) /\
      (forall other, other <> event ->
         Frozendict.get events' other = Frozendict.get events other) /\
      ((forall key tag, Frozendict.get events key = Some tag ->
          (tag < custom_event pg)%Z) ->
       forall key, Frozendict.get events key <> Some (custom_event pg)).
Proof.
  intros NUMEVENTS events event pg L.
  exists (Frozendict.set events event (custom_event pg)).
  unfold event_register. rewrite (custom_type_next _ _ L).
  split; [reflexivity|]. split; [apply get_set_same|]. split.
  - intros other Ne. now apply get_set_other.
  - intros Earlier key G. apply Earlier in G. lia.
Qed.

Lemma event_register_rebinds_witness :
  (custom_event {| custom_event := 32868 |} < 65535)%Z /\
  exists events',
    event_register 65535 [(SystemKey INIT, 32867%Z)] (SystemKey INIT)
      {| custom_event := 32868 |} =
      (Ok events', {| custom_event := 32868 + 1 |}) /\
    Frozendict.get events' (SystemKey INIT) = Some 32868%Z /\
    (forall other, other <> SystemKey INIT ->
       Frozendict.get events' other =
       Frozendict.get [(SystemKey INIT, 32867%Z)] other) /\
    ((forall key tag,
        Frozendict.get [(SystemKey INIT, 32867%Z)] key = Some tag ->
        (tag < 32868)%Z) ->
     forall key,
       Frozendict.get [(SystemKey INIT, 32867%Z)] key <> Some 32868%Z).
Proof.
  split; [reflexivity|].
  apply (event_register_rebinds 65535 [(SystemKey INIT, 32867%Z)]
           (SystemKey INIT) {| custom_event := 32868 |}).
  reflexivity.
Defined.

(** C3, as stated, fails: registering [INIT] in the registry that already
    binds it, later in the same chain, changes its tag from 32867 to
    32868. *)
Lemma event_register_changes_present_tag :
  event_register 65535 Frozendict.empty (SystemKey INIT)
    {| custom_event := 32867 |} =
    (Ok [(SystemKey INIT, 32867%Z)], {| custom_event := 32868 |}) /\
  Frozendict.get [(SystemKey INIT, 32867%Z)] (SystemKey INIT) = Some 32867%Z /\
  event_register 65535 [(SystemKey INIT, 32867%Z)] (SystemKey INIT)
    {| custom_event := 32868 |} =
    (Ok [(SystemKey INIT, 32868%Z)], {| custom_event := 32869 |}) /\
  Frozendict.get [(SystemKey INIT, 32868%Z)] (SystemKey INIT) <> Some 32867%Z.
Proof.
  repeat split; try reflexivity. discriminate.
Qed.

End RegistryFacts.

(** The registry operations at the registry of [click_application]. *)
Section RegistryExamples.
Import Game Spec Fixtures.

Example listener_add_on_elem_a :
  listener_add (listeners click_application) (TargetElement elem_a)
    MOUSEBUTTONDOWN "again"%string =
  Ok [(MOUSEBUTTONDOWN,
       [(ElementId 1%N, [on "on_a"; on "again"]);
        (ElementId 2%N, [on "on_b"]);
        (ElementId 3%N, [on "on_c"]);
        (Wildcard, [on "on_any"])])].
Proof. reflexivity. Qed.

Example listener_add_other_target :
  listener_add (listeners click_application) (TargetValue (PyStr "*"))
    MOUSEBUTTONDOWN "again"%string = Raise (Exception "Not supported").
Proof. reflexivity. Qed.

Example listeners_remove_elem_b :
  listeners_remove (listeners click_application) elem_b =
  Ok [(MOUSEBUTTONDOWN,
       [(ElementId 1%N, [on "on_a"]);
        (ElementId 3%N, [on "on_c"]);
        (Wildcard, [on "on_any"])])].
Proof. reflexivity. Qed.

Example listeners_remove_unregistered :
  listeners_remove (listeners click_application)
    {| position := None; id := 9%N |} = Ok (listeners click_application).
Proof. reflexivity. Qed.

(** [event_register_system] at start-up, and once more on its own result:
    the second round gives every system event a new tag. *)
Example event_register_system_twice :
  event_register_system 65535
    {| events := Frozendict.empty; listeners := listeners click_application;
       elements := Frozendict.empty |} {| custom_event := 32867 |} =
  (Ok {| events := [(SystemKey INIT, 32867); (SystemKey EXIT, 32868);
                    (SystemKey REFRESH, 32869); (SystemKey FRAME_NEXT, 32870)]%Z;
         listeners := listeners click_application;
         elements := Frozendict.empty |},
   {| custom_event := 32871 |}) /\
  event_register_system 65535
    {| events := [(SystemKey INIT, 32867); (SystemKey EXIT, 32868);
                  (SystemKey REFRESH, 32869); (SystemKey FRAME_NEXT, 32870)]%Z;
       listeners := listeners click_application;
       elements := Frozendict.empty |} {| custom_event := 32871 |} =
  (Ok {| events := [(SystemKey INIT, 32871); (SystemKey EXIT, 32872);
                    (SystemKey REFRESH, 32873); (SystemKey FRAME_NEXT, 32874)]%Z;
         listeners := listeners click_application;
         elements := Frozendict.empty |},
   {| custom_event := 32875 |}).
Proof. split; reflexivity. Qed.

End RegistryExamples.

(** ** The dispatcher (event.py) *)

Section DispatchFacts.
Import Game Event Spec Fixtures.

Lemma for_each_created {callable X : Type} (xs : list X)
    (body : X -> list (invocation callable) * outcome unit) x created inv :
  snd (for_each xs body) = Ok tt ->
  In x xs -> body x = (created, Ok tt) -> In inv created ->
  In inv (fst (for_each xs body)).
Proof.
  induction xs as [|y xs IH]; simpl; [tauto|].
  intros Done I B Ic.
  destruct (body y) as [c [[]|e]] eqn:By; simpl in Done; [|discriminate].
  destruct (for_each xs body) as [more r] eqn:F. simpl in *.
  apply in_or_app. destruct I as [->|I].
  - left. rewrite B in By. injection By as <-. exact Ic.
  - right. now apply IH.
Qed.

Lemma for_each_Ok_inv {callable X : Type} (xs : list X)
    (body : X -> list (invocation callable) * outcome unit) x :
  snd (for_each xs body) = Ok tt -> In x xs -> snd (body x) = Ok tt.
Proof.
  induction xs as [|y xs IH]; simpl; [tauto|].
  intros Done I.
  destruct (body y) as [c [[]|e]] eqn:By; simpl in Done; [|discriminate].
  destruct (for_each xs body) as [more r] eqn:F. simpl in *.
  destruct I as [->|I]; [now rewrite By | now apply IH].
Qed.

(** The dispatch with no target, which [dispatch_mouse] always makes,
    calls the listeners of every element registered for the event type,
    whatever the pointer position. *)
Lemma dispatch_to_target_None_reaches_elements {callable : Type}
    (application : Application callable) (event : Event.Event)
    (i : UUID) (element : Element) ls l :
  snd (dispatch_to_target application event None) = Ok tt ->
  In (ElementId i, ls)
     (Frozendict.get_default (listeners application) (type event) Frozendict.empty) ->
  In l ls ->
  Frozendict.get (elements application) i = Some element ->
  In {| listener := l; event := event; target := OfElement element |}
     (fst (dispatch_to_target application event None)).
Proof.
  intros Done Ik Il G. unfold dispatch_to_target in *.
  pose proof (for_each_Ok_inv _ _ _ Done Ik) as Inner. cbn beta iota in Inner.
  eapply for_each_created with (x := (ElementId i, ls)).
  - exact Done.
  - exact Ik.
  - cbn beta iota. rewrite <- Inner. apply surjective_pairing.
  - eapply for_each_created with (x := l).
    + exact Inner.
    + exact Il.
    + unfold call_with_element, Frozendict.getitem. rewrite G. reflexivity.
    + now left.
Qed.

(** Unless its body raises, [dispatch_mouse] calls everything the dispatch
    with no target calls. *)
Lemma dispatch_mouse_includes_broadcast {callable : Type}
    (application : Application callable) (event : Event.Event) hits inv :
  hit_targets application event
    (Frozendict.keys
       (Frozendict.get_default (listeners application) (type event)
          Frozendict.empty)) = Ok hits ->
  In inv (fst (dispatch_to_target application event None)) ->
  In inv (fst (dispatch_mouse application event)).
Proof.
  intros Hits I. unfold dispatch_mouse. rewrite Hits. cbn [run_group].
  destruct (dispatch_to_target application event None) as [created r].
  destruct (run_group application event hits) as [more errors].
  cbn [fst] in *. apply in_or_app. now left.
Qed.

(** C2 at three elements of which only [elem_a] is under the pointer: the
    listeners of [elem_b] and [elem_c] are called as well, and the one of
    [elem_a] is called twice. *)
Theorem dispatch_mouse_calls_elements_not_hit :
  should_fire click_application click (ElementId 1%N) = true /\
  should_fire click_application click (ElementId 2%N) = false /\
  should_fire click_application click (ElementId 3%N) = false /\
  dispatch_mouse click_application click =
    ([ {| listener := on "on_a"; event := click; target := OfElement elem_a |};
       {| listener := on "on_b"; event := click; target := OfElement elem_b |};
       {| listener := on "on_c"; event := click; target := OfElement elem_c |};
       {| listener := on "on_any"; event := click;
          target := OfApplication click_application |};
       {| listener := on "on_a"; event := click; target := OfElement elem_a |} ],
     Ok tt).
Proof.
  split; [|split; [|split]].
  - reflexivity.
  - reflexivity.
  - reflexivity.
  - vm_compute. reflexivity.
Qed.

End DispatchFacts.

(** ** The mailbox actor (actor.py, common.py) *)

Section ActorFacts.
Import Actor Loop Spec.
Context `{PyClasses}.

Lemma truthy_name (name : string) : name <> ""%string -> truthy (PyStr name) = true.
Proof.
  intros N. simpl. destruct (String.eqb_spec name ""); [contradiction | reflexivity].
Qed.

(** A MutateRequest on a named field of a dataclass instance: the
    operation gets the field's value and the new State is the old one with
    the field replaced by the operation's result, whatever that result. *)
Lemma SetRequest_call_named cls fields name old o v :
  name <> ""%string ->
  Frozendict.get fields name = Some old ->
  op o old (args o) (kwargs o) = Ok v ->
  SetRequest.call {| SetRequest.operation := o; SetRequest.field := PyStr name |}
    (PyData cls fields) =
  Ok (PyData cls (Frozendict.set fields name v)).
Proof.
  intros N G O. unfold SetRequest.call. cbn [SetRequest.field SetRequest.operation].
  rewrite (truthy_name name N). unfold _state_getter, getattr. rewrite G.
  cbn [obind]. rewrite O. cbn [obind].
  unfold _state_setter, replace. cbn [is_dataclass]. now rewrite G.
Qed.

(** Whatever a MutateRequest returns is an instance of a dataclass. *)
Lemma SetRequest_call_dataclass m state result :
  SetRequest.call m state = Ok result -> is_dataclass result = true.
Proof.
  unfold SetRequest.call, _state_setter, replace.
  destruct (if truthy (SetRequest.field m) then _ else _) as [target|]; [|discriminate].
  cbn [obind]. destruct (op _ _ _ _) as [value|]; [|discriminate]. cbn [obind].
  destruct state; cbn [is_dataclass]; try discriminate.
  destruct (SetRequest.field m); try discriminate.
  destruct (Frozendict.get fields s); [|discriminate].
  now intros [= <-].
Qed.

(** The step of [consume] on a MutateRequest is the specification's
    [mutate]; the request leaves the queue either way. *)
Lemma consume_Set state m rest ts fs n :
  consume state (Build_world (Set_ m :: rest) ts fs n) =
  (mutate state m, Build_world rest ts fs n).
Proof.
  unfold consume, bind, queue_get, lift, mutate. cbn [mailbox tasks futures next_future].
  destruct (SetRequest.call m state) as [result|e]; cbn [obind]; [|reflexivity].
  destruct (truthy result); reflexivity.
Qed.

Lemma consume_Execute state r rest ts fs n :
  consume state (Build_world (Execute r :: rest) ts fs n) =
  (Ok state,
   Build_world rest (ts ++ [{| task_request := r; task_state := state |}]) fs n).
Proof. reflexivity. Qed.

Lemma consume_empty state ts fs n :
  consume state (Build_world [] ts fs n) =
  (Raise CancelledError, Build_world [] ts fs n).
Proof. reflexivity. Qed.

(** The loop over a queue that is cancelled once drained: with more fuel
    than requests it ends, and its State is the fold over the
    MutateRequests. *)
Lemma loop_is_fold (queue : list request) :
  forall fuel initial ts fs n,
    List.length queue < fuel ->
    exists w',
      coroutine_reduce fuel consume initial (Build_world queue ts fs n) =
      Some (apply_in_order initial (mutations queue), w').
Proof.
  induction queue as [|r rest IH]; intros fuel initial ts fs n L;
    (destruct fuel as [|fuel]; [simpl in L; lia|]); cbn [coroutine_reduce].
  - rewrite consume_empty. eexists. reflexivity.
  - simpl in L. destruct r as [m|x].
    + rewrite consume_Set. cbn [mutations flat_map app apply_in_order].
      fold (mutations rest).
      destruct (mutate initial m) as [state'|e].
      * apply IH. lia.
      * destruct e; eexists; reflexivity.
    + rewrite consume_Execute. cbn [mutations flat_map app].
      fold (mutations rest). apply IH. lia.
Qed.

Lemma mutations_app (before after : list request) :
  mutations (before ++ after) = mutations before ++ mutations after.
Proof. unfold mutations. apply flat_map_app. Qed.

(** For a request that names a field, on classes with the default truth
    value, the step of the code produces what the specification's
    application produces. *)
Lemma apply_mutation_refined state m state' :
  (forall cls fields, dataclass_bool cls fields = true) ->
  names_field m = true ->
  apply_mutation state m = Produced state' ->
  mutate state m = Ok state'.
Proof.
  intros Default Named. destruct m as [o f].
  unfold names_field, apply_mutation in *.
  cbn [SetRequest.field SetRequest.operation] in *.
  destruct f as [| | |name| | |]; try discriminate.
  assert (N : name <> ""%string).
  { intros ->. discriminate Named. }
  destruct state as [| | | | | |cls fields]; try discriminate.
  destruct (Frozendict.get fields name) as [current|] eqn:G; [|discriminate].
  unfold replacement.
  destruct (op o current (args o) (kwargs o)) as [value|e] eqn:O; [|discriminate].
  intros P. unfold mutate.
  rewrite (SetRequest_call_named cls fields name current o value N G O).
  cbn [obind truthy]. rewrite Default.
  destruct value; try discriminate; now injection P as <-.
Qed.

Lemma apply_sequentially_refined (ms : list SetRequest.t) :
  forall state final,
    (forall cls fields, dataclass_bool cls fields = true) ->
    forallb names_field ms = true ->
    apply_sequentially state ms = Produced final ->
    apply_in_order state ms = Ok final.
Proof.
  induction ms as [|m ms IH]; intros state final Default Named P.
  - cbn in *. now injection P as <-.
  - cbn [forallb] in Named. apply andb_prop in Named. destruct Named as [Nm Nms].
    cbn [apply_sequentially] in P. cbn [apply_in_order].
    destruct (apply_mutation state m) as [state'| | |] eqn:A; try discriminate.
    rewrite (apply_mutation_refined state m state' Default Nm A).
    now apply IH.
Qed.

(** C1, as amended: for every mailbox content whose MutateRequests each
    name a target field, in enqueue order and with InvokeRequests
    interleaved anywhere, and for State classes with the default truth
    value: when applying the mutate operations sequentially in that order
    from the initial State produces a State, the consume loop, run until
    the queue is drained and the task cancelled, ends holding exactly that
    State. *)
Theorem consume_loop_matches_sequential_application :
  forall (w : world) (initial final : pyval) (fuel : nat),
    (forall cls fields, dataclass_bool cls fields = true) ->
    forallb names_field (mutations (mailbox w)) = true ->
    apply_sequentially initial (mutations (mailbox w)) = Produced final ->
    List.length (mailbox w) < fuel ->
    exists w',
      coroutine_reduce fuel consume initial w = Some (Ok final, w').
Proof.
  intros [queue ts fs n] initial final fuel Default Named P L.
  cbn [mailbox] in *.
  destruct (loop_is_fold queue fuel initial ts fs n L) as [w' Run].
  exists w'. rewrite Run.
  now rewrite (apply_sequentially_refined _ initial final Default Named P).
Qed.

(** C5: processing an InvokeRequest returns exactly the State it was
    given, only handing a detached task to the event loop; and in the loop
    an InvokeRequest anywhere in the queue changes nothing of the final
    State. *)
Theorem consume_execute_keeps_state :
  forall (state : pyval) (r : ExecuteRequest.t) (rest : list request)
         (ts : list task) (fs : Frozendict.t nat future_state) (n : nat),
    consume state (Build_world (Execute r :: rest) ts fs n) =
      (Ok state,
       Build_world rest (ts ++ [{| task_request := r; task_state := state |}]) fs n) /\
    forall before fuel,
      List.length (before ++ Execute r :: rest) < fuel ->
      option_map fst
        (coroutine_reduce fuel consume state
           (Build_world (before ++ Execute r :: rest) ts fs n)) =
      option_map fst
        (coroutine_reduce fuel consume state
           (Build_world (before ++ rest) ts fs n)).
Proof.
  intros state r rest ts fs n. split; [apply consume_Execute|].
  intros before fuel L.
  destruct (loop_is_fold (before ++ Execute r :: rest) fuel state ts fs n L) as [w1 ->].
  assert (L' : List.length (before ++ rest) < fuel).
  { rewrite length_app in *. simpl in L. lia. }
  destruct (loop_is_fold (before ++ rest) fuel state ts fs n L') as [w2 ->].
  cbn [option_map fst]. rewrite !mutations_app. reflexivity.
Qed.

(** C4 with no target field: the operation is invoked against the whole
    State, but its result never becomes the State; the setter is still
    called with the absent field name and raises. *)
Theorem SetRequest_call_without_field :
  forall (o : Operation) (state : pyval),
    SetRequest.call {| SetRequest.operation := o; SetRequest.field := PyNone |} state =
    obind (op o state (args o) (kwargs o))
      (fun _ => Raise (if is_dataclass state then TypeError else AssertionError)).
Proof.
  intros o state. unfold SetRequest.call, _state_setter, replace.
  cbn [SetRequest.field SetRequest.operation truthy obind].
  destruct (op o state (args o) (kwargs o)); [|reflexivity].
  cbn [obind]. destruct (is_dataclass state); reflexivity.
Qed.

(** C6, as amended: for an InvokeRequest with a reply future, when the
    operation raises, the exception ends the detached task and the futures
    are left as they were, the reply future unresolved; when it returns,
    the pending reply future is fulfilled with the result. *)
Theorem ExecuteRequest_call_reply :
  forall (self : ExecuteRequest.t) (state target : pyval) (fut : nat) (w : world),
    ExecuteRequest.reply_to self = Some fut ->
    (if truthy (ExecuteRequest.field self)
     then _state_getter state (ExecuteRequest.field self)
     else Ok state) = Ok target ->
    future_of w fut = Pending ->
    (forall e,
       op (ExecuteRequest.operation self) target
          (args (ExecuteRequest.operation self))
          (kwargs (ExecuteRequest.operation self)) = Raise e ->
       ExecuteRequest_call self state w = (Raise e, w) /\
       future_of (snd (ExecuteRequest_call self state w)) fut = Pending) /\
    (forall v,
       op (ExecuteRequest.operation self) target
          (args (ExecuteRequest.operation self))
          (kwargs (ExecuteRequest.operation self)) = Ok v ->
       fst (ExecuteRequest_call self state w) = Ok tt /\
       future_of (snd (ExecuteRequest_call self state w)) fut = Finished v).
Proof.
  intros self state target fut w R T P.
  unfold ExecuteRequest_call, bind, lift. rewrite T, R. split.
  - intros e O. rewrite O. cbn [snd]. split; [reflexivity | exact P].
  - intros v O. rewrite O. unfold set_result. rewrite P. cbn [fst snd].
    split; [reflexivity|]. unfold future_of, Frozendict.get_default.
    cbn [futures]. now rewrite get_set_same.
Qed.

(** C7, as amended: a null produced by the operation for a named target
    field is not a failure, the step returns the new State with the field
    set to null; what the step never returns after a MutateRequest is a
    null or otherwise falsy State. *)
Theorem consume_stores_null_in_field :
  forall (cls : string) (fields : Frozendict.t string pyval) (name : string)
         (old : pyval) (o : Operation) (rest : list request) (ts : list task)
         (fs : Frozendict.t nat future_state) (n : nat),
    name <> ""%string ->
    Frozendict.get fields name = Some old ->
    op o old (args o) (kwargs o) = Ok PyNone ->
    dataclass_bool cls (Frozendict.set fields name PyNone) = true ->
    consume (PyData cls fields)
      (Build_world
         (Set_ {| SetRequest.operation := o; SetRequest.field := PyStr name |} :: rest)
         ts fs n) =
      (Ok (PyData cls (Frozendict.set fields name PyNone)), Build_world rest ts fs n) /\
    forall state m result w',
      consume state (Build_world (Set_ m :: rest) ts fs n) = (Ok result, w') ->
      result <> PyNone /\ truthy result = true.
Proof.
  intros cls fields name old o rest ts fs n N G O T. split.
  - rewrite consume_Set. unfold mutate.
    rewrite (SetRequest_call_named cls fields name old o PyNone N G O).
    cbn [obind truthy]. now rewrite T.
  - intros state m result w'. rewrite consume_Set. unfold mutate.
    destruct (SetRequest.call m state) as [r|e]; cbn [obind]; [|discriminate].
    destruct (truthy r) eqn:Tr; [|discriminate].
    intros [= <- _]. split; [|exact Tr].
    intros ->. discriminate Tr.
Qed.

(** C10, as amended: [consume] tests the new State the MutateRequest
    returns, not the value its operation returned.  A falsy new State
    raises [AssertionError] and is not installed; a truthy one is
    installed; and for a named field the new State is the old one with the
    field replaced by the operation's result, whatever its truth value. *)
Theorem consume_asserts_new_state :
  forall (state result : pyval) (m : SetRequest.t) (rest : list request)
         (ts : list task) (fs : Frozendict.t nat future_state) (n : nat),
    SetRequest.call m state = Ok result ->
    consume state (Build_world (Set_ m :: rest) ts fs n) =
      (if truthy result then Ok result else Raise AssertionError,
       Build_world rest ts fs n) /\
    is_dataclass result = true /\
    forall cls fields name old v,
      state = PyData cls fields ->
      SetRequest.field m = PyStr name ->
      name <> ""%string ->
      Frozendict.get fields name = Some old ->
      op (SetRequest.operation m) old
         (args (SetRequest.operation m)) (kwargs (SetRequest.operation m)) = Ok v ->
      result = PyData cls (Frozendict.set fields name v).
Proof.
  intros state result m rest ts fs n C. split; [|split].
  - rewrite consume_Set. unfold mutate. rewrite C. reflexivity.
  - exact (SetRequest_call_dataclass m state result C).
  - intros cls fields name old v -> F N G O. destruct m as [o f].
    cbn [SetRequest.field SetRequest.operation] in *. subst f.
    rewrite (SetRequest_call_named cls fields name old o v N G O) in C.
    now injection C.
Qed.

End ActorFacts.

(** ** The theorems at concrete inputs *)

Section ActorExamples.
Import Actor Loop Spec Fixtures.

(** Two increments of a counter with an InvokeRequest between them: the
    loop ends with the counter at 2. *)
Lemma consume_loop_matches_sequential_application_witness :
  forallb names_field (mutations FixturesLoop.counting) = true /\
  apply_sequentially FixturesLoop.counter_state (mutations FixturesLoop.counting) =
    Produced (PyData "Counter" [("count", PyInt 2); ("label", PyStr "clicks")]%string) /\
  exists w',
    coroutine_reduce 4 (@consume default_truth) FixturesLoop.counter_state
      (Build_world FixturesLoop.counting [] Frozendict.empty 1) =
    Some (Ok (PyData "Counter" [("count", PyInt 2); ("label", PyStr "clicks")]%string),
          w').
Proof.
  split; [reflexivity|]. split; [reflexivity|].
  apply (@consume_loop_matches_sequential_application default_truth
           (Build_world FixturesLoop.counting [] Frozendict.empty 1)
           FixturesLoop.counter_state
           (PyData "Counter" [("count", PyInt 2); ("label", PyStr "clicks")]%string)
           4).
  - intros cls fields. reflexivity.
  - reflexivity.
  - reflexivity.
  - simpl. lia.
Defined.

(** C1, as stated, fails.  With no target field, sequential application
    replaces the whole State by the operation's result and the loop raises
    [TypeError]; with a null result for the field [data], sequential
    application is a contract violation and the loop ends holding a State
    with null in the field; and for a class with [__len__], sequential
    application produces the emptied [Bag] and the loop raises
    [AssertionError]. *)
Lemma consume_loop_differs_from_sequential_application :
  apply_sequentially FixturesLoop.counter_state
    [FixturesLoop.on_field (returns FixturesLoop.fresh_state) PyNone] =
    Produced FixturesLoop.fresh_state /\
  coroutine_reduce 2 (@consume default_truth) FixturesLoop.counter_state
    (Build_world
       [Set_ (FixturesLoop.on_field (returns FixturesLoop.fresh_state) PyNone)]
       [] Frozendict.empty 0) =
    Some (Raise TypeError, start) /\
  apply_sequentially app_state
    [FixturesLoop.on_field (returns PyNone) (PyStr "data")] = ContractViolation /\
  coroutine_reduce 2 (@consume default_truth) app_state
    (Build_world [Set_ (FixturesLoop.on_field (returns PyNone) (PyStr "data"))]
       [] Frozendict.empty 0) =
    Some (Ok (PyData "Application"
                [("events", PyDict []);
                 ("elements", PyDict [(PyInt 1, PyStr "a")]);
                 ("data", PyNone)]%string), start) /\
  apply_sequentially (PyData "Bag" [("items", PyTuple [PyInt 1])]%string)
    [FixturesLoop.on_field (returns (PyTuple [])) (PyStr "items")] =
    Produced (PyData "Bag" [("items", PyTuple [])]%string) /\
  coroutine_reduce 2 (@consume bag_truth)
    (PyData "Bag" [("items", PyTuple [PyInt 1])]%string)
    (Build_world [Set_ (FixturesLoop.on_field (returns (PyTuple [])) (PyStr "items"))]
       [] Frozendict.empty 0) =
    Some (Raise AssertionError, start).
Proof. repeat split. Qed.

(** The failing input of C4: a MutateRequest with no target field on a
    dataclass State. *)
Example SetRequest_call_without_field_raises :
  @SetRequest.call default_truth
    {| SetRequest.operation := returns_target; SetRequest.field := PyNone |}
    app_state = Raise TypeError.
Proof. reflexivity. Qed.

(** C6, as stated, fails: the operation of a synchronous invoke raises, the
    task that runs the request ends with that exception, and the reply
    future is still pending, not fulfilled with the failure. *)
Lemma failing_invoke_leaves_reply_pending :
  execute_sync (PyStr "data") (op raises) [] [] start =
    (Ok 0, Build_world [Execute failing_invoke] [] Frozendict.empty 1) /\
  @consume default_truth app_state
    (Build_world [Execute failing_invoke] [] Frozendict.empty 1) =
    (Ok app_state,
     Build_world [] [{| task_request := failing_invoke; task_state := app_state |}]
       Frozendict.empty 1) /\
  @run_task default_truth {| task_request := failing_invoke; task_state := app_state |}
    (Build_world [] [{| task_request := failing_invoke; task_state := app_state |}]
       Frozendict.empty 1) =
    (Raise (Exception "boom"),
     Build_world [] [{| task_request := failing_invoke; task_state := app_state |}]
       Frozendict.empty 1) /\
  future_of
    (Build_world [] [{| task_request := failing_invoke; task_state := app_state |}]
       Frozendict.empty 1) 0 = Pending /\
  Pending <> Failed (Exception "boom").
Proof.
  repeat split; try reflexivity. discriminate.
Qed.

Lemma ExecuteRequest_call_reply_witness :
  ExecuteRequest.reply_to failing_invoke = Some 0 /\
  (if @truthy default_truth (ExecuteRequest.field failing_invoke)
   then _state_getter app_state (ExecuteRequest.field failing_invoke)
   else Ok app_state) = Ok (PyDict [(PyStr "score", PyInt 7)]) /\
  future_of start 0 = Pending /\
  (forall e,
     op raises (PyDict [(PyStr "score", PyInt 7)]) (args raises) (kwargs raises) =
       Raise e ->
     @ExecuteRequest_call default_truth failing_invoke app_state start =
       (Raise e, start) /\
     future_of (snd (@ExecuteRequest_call default_truth failing_invoke app_state start)) 0 =
       Pending) /\
  (forall v,
     op raises (PyDict [(PyStr "score", PyInt 7)]) (args raises) (kwargs raises) =
       Ok v ->
     fst (@ExecuteRequest_call default_truth failing_invoke app_state start) = Ok tt /\
     future_of (snd (@ExecuteRequest_call default_truth failing_invoke app_state start)) 0 =
       Finished v).
Proof.
  split; [reflexivity|]. split; [reflexivity|]. split; [reflexivity|].
  apply (@ExecuteRequest_call_reply default_truth failing_invoke app_state
           (PyDict [(PyStr "score", PyInt 7)]) 0 start);
    reflexivity.
Defined.

(** The assertion of [consume] at work: emptying a [Bag] makes the new
    State falsy, and the step raises. *)
Example consume_rejects_falsy_state :
  @consume bag_truth (PyData "Bag" [("items", PyTuple [PyInt 1])]%string)
    (Build_world [mutate_field (returns (PyTuple [])) "items"] [] Frozendict.empty 0) =
  (Raise AssertionError, start).
Proof. reflexivity. Qed.

(** Producers append to the mailbox: the queue holds the requests in the
    order of the calls. *)
Example producers_enqueue_in_order :
  mailbox
    (snd (bind (set_ (PyStr "elements") (op (returns (PyDict []))) [] [])
            (fun _ =>
               bind (execute PyNone (op returns_target) [] [])
                 (fun _ => set_ (PyStr "data") (op (returns (PyInt 0))) [] []))
            start)) =
  [mutate_field (returns (PyDict [])) "elements";
   Execute {| ExecuteRequest.operation := returns_target;
              ExecuteRequest.field := PyNone;
              ExecuteRequest.reply_to := None |};
   mutate_field (returns (PyInt 0)) "data"].
Proof. reflexivity. Qed.

(** C7, as stated, fails: the operation returns null for the field
    [data]; the step does not raise and the new State holds null there. *)
Lemma consume_accepts_null_field :
  @consume default_truth app_state
    (Build_world [mutate_field (returns PyNone) "data"] [] Frozendict.empty 0) =
  (Ok (PyData "Application"
         [("events", PyDict []);
          ("elements", PyDict [(PyInt 1, PyStr "a")]);
          ("data", PyNone)]%string),
   start).
Proof. reflexivity. Qed.

Lemma consume_stores_null_in_field_witness :
  "data"%string <> ""%string /\
  Frozendict.get
    [("events", PyDict []); ("elements", PyDict [(PyInt 1, PyStr "a")]);
     ("data", PyDict [(PyStr "score", PyInt 7)])]%string "data"%string =
    Some (PyDict [(PyStr "score", PyInt 7)]) /\
  @consume default_truth app_state
    (Build_world [mutate_field (returns PyNone) "data"] [] Frozendict.empty 0) =
  (Ok (PyData "Application"
         [("events", PyDict []);
          ("elements", PyDict [(PyInt 1, PyStr "a")]);
          ("data", PyNone)]%string),
   start) /\
  forall state m result w',
    @consume default_truth state
      (Build_world [Set_ m] [] Frozendict.empty 0) = (Ok result, w') ->
    result <> PyNone /\ @truthy default_truth result = true.
Proof.
  split; [discriminate|]. split; [reflexivity|].
  apply (@consume_stores_null_in_field default_truth "Application"
           [("events", PyDict []); ("elements", PyDict [(PyInt 1, PyStr "a")]);
            ("data", PyDict [(PyStr "score", PyInt 7)])]%string
           "data" (PyDict [(PyStr "score", PyInt 7)]) (returns PyNone)
           [] [] Frozendict.empty 0);
    [discriminate | reflexivity | reflexivity | reflexivity].
Defined.

(** C10, as stated, fails: operations that return an empty mapping, [False],
    0 and the empty string for a field; each time the assertion passes and
    the falsy value is installed in the field. *)
Lemma consume_accepts_falsy_results :
  @consume default_truth app_state
    (Build_world [mutate_field (returns (PyDict [])) "elements"] [] Frozendict.empty 0) =
  (Ok (PyData "Application"
         [("events", PyDict []); ("elements", PyDict []);
          ("data", PyDict [(PyStr "score", PyInt 7)])]%string), start) /\
  @consume default_truth app_state
    (Build_world [mutate_field (returns (PyBool false)) "elements"] [] Frozendict.empty 0) =
  (Ok (PyData "Application"
         [("events", PyDict []); ("elements", PyBool false);
          ("data", PyDict [(PyStr "score", PyInt 7)])]%string), start) /\
  @consume default_truth app_state
    (Build_world [mutate_field (returns (PyInt 0)) "elements"] [] Frozendict.empty 0) =
  (Ok (PyData "Application"
         [("events", PyDict []); ("elements", PyInt 0);
          ("data", PyDict [(PyStr "score", PyInt 7)])]%string), start) /\
  @consume default_truth app_state
    (Build_world [mutate_field (returns (PyStr "")) "elements"] [] Frozendict.empty 0) =
  (Ok (PyData "Application"
         [("events", PyDict []); ("elements", PyStr "");
          ("data", PyDict [(PyStr "score", PyInt 7)])]%string), start).
Proof. repeat split. Qed.

Lemma consume_asserts_new_state_witness :
  @SetRequest.call default_truth
    {| SetRequest.operation := returns (PyDict []);
       SetRequest.field := PyStr "elements" |} app_state =
    Ok (PyData "Application"
          [("events", PyDict []); ("elements", PyDict []);
           ("data", PyDict [(PyStr "score", PyInt 7)])]%string) /\
  @consume default_truth app_state
    (Build_world [mutate_field (returns (PyDict [])) "elements"] [] Frozendict.empty 0) =
    (Ok (PyData "Application"
           [("events", PyDict []); ("elements", PyDict []);
            ("data", PyDict [(PyStr "score", PyInt 7)])]%string), start).
Proof.
  split; [reflexivity|].
  apply (@consume_asserts_new_state default_truth app_state
           (PyData "Application"
              [("events", PyDict []); ("elements", PyDict []);
               ("data", PyDict [(PyStr "score", PyInt 7)])]%string)
           {| SetRequest.operation := returns (PyDict []);
              SetRequest.field := PyStr "elements" |}
           [] [] Frozendict.empty 0).
  reflexivity.
Defined.

End ActorExamples.

(** * Part III: the rest of the framework *)

(** ** More on frozendict *)

Section FrozendictMore.
Context {K V : Type} `{EqDec K}.
Implicit Types (d : Frozendict.t K V) (k : K) (v : V).

Lemma keys_set_present d k v :
  Frozendict.get d k <> None -> Frozendict.keys (Frozendict.set d k v) = Frozendict.keys d.
Proof.
  induction d as [|[k0 v0] d IH]; simpl; [congruence|].
  destruct (eq_dec k k0) as [E|E]; simpl; [reflexivity|].
  intros G. f_equal. now apply IH.
Qed.

Lemma wf_set d k v : Frozendict.wf d -> Frozendict.wf (Frozendict.set d k v).
Proof.
  unfold Frozendict.wf. intros W.
  destruct (Frozendict.get d k) as [old|] eqn:G.
  - rewrite keys_set_present by congruence. exact W.
  - rewrite (set_absent _ _ _ G). unfold Frozendict.keys. rewrite map_app. simpl.
    apply NoDup_app; [exact W | constructor; [tauto | constructor] |].
    intros a Ia [<-|[]]. now apply get_None_not_In in G.
Qed.

Lemma remove_set_absent d k v :
  Frozendict.get d k = None -> Frozendict.remove (Frozendict.set d k v) k = d.
Proof.
  induction d as [|[k0 v0] d IH]; simpl.
  - intros _. destruct (eq_dec k k); congruence.
  - destruct (eq_dec k k0) as [E|E]; [discriminate|].
    intros G. simpl. destruct (eq_dec k k0); [contradiction|]. now rewrite IH.
Qed.

Lemma length_set_present d k v :
  Frozendict.get d k <> None ->
  List.length (Frozendict.set d k v) = List.length d.
Proof.
  intros G. rewrite <- (length_map fst (Frozendict.set d k v)), <- (length_map fst d).
  change (List.length (Frozendict.keys (Frozendict.set d k v)) =
          List.length (Frozendict.keys d)).
  now rewrite keys_set_present.
Qed.

Lemma length_remove_present d k old :
  Frozendict.get d k = Some old ->
  S (List.length (Frozendict.remove d k)) = List.length d.
Proof.
  induction d as [|[k0 v0] d IH]; simpl; [discriminate|].
  destruct (eq_dec k k0) as [E|E]; [reflexivity|].
  intros G. simpl. now rewrite IH.
Qed.

End FrozendictMore.

(** ** The element collection (game.py) *)

Section ElementFacts.
Import Game GameOps.
Implicit Types (elements : Frozendict.t UUID Element) (element : Element).

(** X1: [element_update] stores the element under its id, replacing the
    element that had the id (the collection keeps its size and order of
    ids) or adding it at the end; every other id keeps its element. *)
Theorem element_update_lookup :
  forall elements element,
  exists elements',
    element_update elements element = Ok elements' /\
    Frozendict.get elements' (id element) = Some element /\
    (forall other, other <> id element ->
       Frozendict.get elements' other = Frozendict.get elements other) /\
    (Frozendict.get elements (id element) <> None ->
       Frozendict.keys elements' = Frozendict.keys elements) /\
    (Frozendict.get elements (id element) = None ->
       elements' = elements ++ [(id element, element)]).
Proof.
  intros elements element. eexists. split; [reflexivity|].
  split; [apply get_set_same|]. split; [|split].
  - intros other N. now apply get_set_other.
  - apply keys_set_present.
  - apply set_absent.
Qed.

(** X2: [element_remove] never raises.  For an id that is not in the
    collection it returns the collection itself; for one that is, the id is
    gone afterwards, one element fewer is left and every other id keeps
    its element. *)
Theorem element_remove_spec :
  forall elements element,
  exists elements',
    element_remove elements element = Ok elements' /\
    (Frozendict.get elements (id element) = None -> elements' = elements) /\
    (forall other, other <> id element ->
       Frozendict.get elements' other = Frozendict.get elements other) /\
    (Frozendict.wf elements -> Frozendict.get elements' (id element) = None) /\
    (Frozendict.get elements (id element) <> None ->
       S (List.length elements') = List.length elements).
Proof.
  intros elements element. unfold element_remove, Frozendict.delete.
  destruct (Frozendict.get elements (id element)) as [old|] eqn:G.
  - eexists. split; [reflexivity|]. split; [discriminate|]. split; [|split].
    + intros other N. now apply get_remove_other.
    + apply get_remove_same.
    + intros _. exact (length_remove_present _ _ _ G).
  - exists elements. split; [reflexivity|]. split; [reflexivity|].
    split; [reflexivity|]. split; [intros _; exact G | congruence].
Qed.

(** X3: adding an element whose id is new and removing it again gives back
    the collection as it was; removing twice is the same as removing
    once. *)
Theorem element_update_remove_round_trip :
  forall elements element,
    (Frozendict.get elements (id element) = None ->
     obind (element_update elements element)
       (fun added => element_remove added element) = Ok elements) /\
    (Frozendict.wf elements ->
     obind (element_remove elements element)
       (fun removed => element_remove removed element) =
     element_remove elements element).
Proof.
  intros elements element. split.
  - intros G. unfold element_update, element_remove, Frozendict.delete. cbn [obind].
    rewrite get_set_same. now rewrite remove_set_absent.
  - intros W. destruct (element_remove_spec elements element)
      as [removed [E [_ [_ [Gone _]]]]].
    rewrite E. cbn [obind]. unfold element_remove at 1, Frozendict.delete.
    now rewrite (Gone W).
Qed.

End ElementFacts.

(** ** More on the event registry (game.py) *)

Section RegistryMore.
Import Game GameOps Spec.
Context {callable : Type}.
Implicit Types (listeners : listeners_map callable) (element : Element).

(** Whether [listener_add] raises depends on the target alone. *)
Lemma listener_add_cases listeners target :
  (forall event_type (listener : callable),
     exists added, listener_add listeners target event_type listener = Ok added) \/
  (forall event_type (listener : callable),
     listener_add listeners target event_type listener =
     Raise (Exception "Not supported")).
Proof.
  unfold listener_add. destruct target as [e|v].
  - left. intros. eexists. reflexivity.
  - destruct v; try (right; reflexivity).
    left. intros. eexists. reflexivity.
Qed.

Lemma listener_add_list_loop_last listeners target earlier event_type
    (listener : callable) application :
  listener_add_list_loop listeners target (earlier ++ [(event_type, listener)])
    application =
  obind (listener_add listeners target event_type listener)
    (fun added => Ok (Some added)).
Proof.
  revert application.
  induction earlier as [|[event_type0 listener0] earlier IH]; intros application.
  - reflexivity.
  - cbn [app listener_add_list_loop].
    destruct (listener_add_cases listeners target) as [Fine|Refused].
    + destruct (Fine event_type0 listener0) as [added ->]. cbn [obind]. apply IH.
    + now rewrite !Refused.
Qed.

(** X4: [listener_add_list] registers only the last of the pairs it is
    given: every iteration adds to the registry it was called with, so its
    result is that of [listener_add] on the last pair alone, and the
    listeners of the earlier pairs are not in it; with no pair at all it
    ends in [UnboundLocalError]. *)
Theorem listener_add_list_keeps_last :
  forall listeners target,
    listener_add_list listeners target [] = inr UnboundLocalError /\
    forall earlier event_type (listener : callable),
      listener_add_list listeners target (earlier ++ [(event_type, listener)]) =
      match listener_add listeners target event_type listener with
      | Ok added => inl added
      | Raise e => inr (Raised e)
      end.
Proof.
  intros listeners target. split; [reflexivity|].
  intros earlier event_type listener. unfold listener_add_list.
  rewrite listener_add_list_loop_last.
  destruct (listener_add listeners target event_type listener); reflexivity.
Qed.

(** X5: registering a listener on an element that had none and then
    removing the element's listeners restores every listener sequence of
    the registry. *)
Theorem listener_add_then_remove :
  forall listeners element event_type (listener : callable),
    Frozendict.wf listeners ->
    never_registered listeners element ->
    exists added removed,
      listener_add listeners (TargetElement element) event_type listener = Ok added /\
      listeners_remove added element = Ok removed /\
      forall event_type' key,
        listeners_for removed event_type' key = listeners_for listeners event_type' key.
Proof.
  intros listeners element event_type listener W Never.
  eexists. eexists. split; [reflexivity|].
  set (targets := Frozendict.get_default listeners event_type Frozendict.empty).
  assert (Absent : Frozendict.get targets (ElementId (id element)) = None).
  { unfold targets, Frozendict.get_default.
    destruct (Frozendict.get listeners event_type) as [t|] eqn:G; [|reflexivity].
    apply (Never event_type). now apply get_In. }
  split.
  - unfold listeners_remove, Frozendict.items.
    apply (reduce_delete_listeners element _ []). simpl.
    now apply wf_set.
  - intros event_type' key. cbn [app]. unfold listeners_for.
    match goal with
    | |- Frozendict.get_default ?a _ _ = Frozendict.get_default ?b _ _ =>
        assert (Same : a = b); [|now rewrite Same]
    end.
    unfold Frozendict.get_default at 1. rewrite get_without.
    destruct (Z.eq_dec event_type' event_type) as [->|Ne].
    + rewrite get_set_same. cbn [option_map].
      rewrite remove_set_absent by exact Absent. reflexivity.
    + rewrite get_set_other by exact Ne. unfold Frozendict.get_default.
      destruct (Frozendict.get listeners event_type') as [t|] eqn:G; [|reflexivity].
      cbn [option_map]. rewrite remove_absent; [reflexivity|].
      apply (Never event_type'). now apply get_In.
Qed.

(** X6: [event_register_system] (and so [application_init]), with four
    event types left, binds the four system events to four consecutive
    tags in the order INIT, EXIT, REFRESH, FRAME_NEXT and touches nothing
    else of the application. *)
Theorem event_register_system_tags :
  forall NUMEVENTS (application : Application callable) (pg : pygame),
    (custom_event pg + 4 <= NUMEVENTS)%Z ->
    exists application',
      application_init NUMEVENTS application pg =
        (Ok application', {| custom_event := custom_event pg + 4 |}) /\
      Frozendict.get (events application') (SystemKey INIT) = Some (custom_event pg) /\
      Frozendict.get (events application') (SystemKey EXIT) = Some (custom_event pg + 1)%Z /\
      Frozendict.get (events application') (SystemKey REFRESH) = Some (custom_event pg + 2)%Z /\
      Frozendict.get (events application') (SystemKey FRAME_NEXT) = Some (custom_event pg + 3)%Z /\
      (forall name, Frozendict.get (events application') (CustomKey name) =
                    Frozendict.get (events application) (CustomKey name)) /\
      listeners application' = listeners application /\
      elements application' = elements application.
Proof.
  intros NUMEVENTS application pg L.
  unfold application_init, event_register_system, SystemEvent_members.
  cbn [event_register_each]. unfold event_register.
  rewrite custom_type_next by lia. cbn [events listeners elements custom_event].
  rewrite custom_type_next by (cbn [custom_event]; lia).
  cbn [events listeners elements custom_event].
  rewrite custom_type_next by (cbn [custom_event]; lia).
  cbn [events listeners elements custom_event].
  rewrite custom_type_next by (cbn [custom_event]; lia).
  cbn [events listeners elements custom_event].
  replace (custom_event pg + 1 + 1 + 1 + 1)%Z with (custom_event pg + 4)%Z by lia.
  replace (custom_event pg + 1 + 1 + 1)%Z with (custom_event pg + 3)%Z by lia.
  replace (custom_event pg + 1 + 1)%Z with (custom_event pg + 2)%Z by lia.
  eexists. split; [reflexivity|].
  cbn [events listeners elements].
  split; [|split; [|split; [|split; [|split; [|split]]]]]; try reflexivity.
  - rewrite !get_set_other by discriminate. apply get_set_same.
  - rewrite !get_set_other by discriminate. apply get_set_same.
  - rewrite !get_set_other by discriminate. apply get_set_same.
  - apply get_set_same.
  - intros name. now rewrite !get_set_other by discriminate.
Qed.

(** X7: with fewer than four event types left, [event_register_system]
    ends in pygame's error and returns no application. *)
Theorem event_register_system_exhausted :
  forall NUMEVENTS (application : Application callable) (pg : pygame),
    (NUMEVENTS < custom_event pg + 4)%Z ->
    fst (event_register_system NUMEVENTS application pg) = Raise PygameError.
Proof.
  intros NUMEVENTS application pg L.
  unfold event_register_system, SystemEvent_members.
  cbn [event_register_each]. unfold event_register, custom_type.
  repeat (cbn [custom_event events listeners elements fst];
          match goal with
          | |- context [(?a <? ?b)%Z] => destruct (Z.ltb_spec a b)
          end; [|reflexivity]).
  cbn [custom_event] in *. lia.
Qed.

End RegistryMore.

(** ** Posting events (game.py) *)

Section PostFacts.
Import Game GameOps.

(** X8: a key that was just registered can be posted: [event_post] hands
    pygame one event carrying the tag that [event_register] allocated,
    with the target when one is given; a key that is not in the mapping is
    dropped without an error and without touching the queue. *)
Theorem event_post_after_register :
  forall (queue : Type) (post : posted -> queue -> outcome bool * queue)
         NUMEVENTS (events : Frozendict.t event_key Z) (event : event_key)
         (target : option UUID) (pg : pygame) (q : queue),
    (custom_event pg < NUMEVENTS)%Z ->
    custom_event pg <> 0%Z ->
    exists events' pg',
      event_register NUMEVENTS events event pg = (Ok events', pg') /\
      event_post post events' event target q =
        (obind (fst (post {| posted_type := custom_event pg;
                             posted_target := target |} q)) (fun _ => Ok tt),
         snd (post {| posted_type := custom_event pg; posted_target := target |} q)) /\
      forall other,
        Frozendict.get events' other = None ->
        event_post post events' other target q = (Ok tt, q).
Proof.
  intros queue post NUMEVENTS events event target pg q L Nz.
  unfold event_register. rewrite (custom_type_next _ _ L).
  eexists. eexists. split; [reflexivity|]. split.
  - unfold event_post. rewrite get_set_same.
    destruct (Z.eqb_spec (custom_event pg) 0); [contradiction|].
    now destruct (post _ q).
  - intros other G. unfold event_post. now rewrite G.
Qed.

End PostFacts.

(** ** More on the dispatcher (event.py) *)

Section DispatchMore.
Import Game Event Spec.
Context {callable : Type}.
Implicit Types (application : Application callable) (event : Event.Event).

Lemma for_each_map {X : Type} (xs : list X)
    (body : X -> list (invocation callable) * outcome unit)
    (f : X -> invocation callable) :
  (forall x, In x xs -> body x = ([f x], Ok tt)) ->
  for_each xs body = (map f xs, Ok tt).
Proof.
  induction xs as [|x xs IH]; intros B; [reflexivity|].
  cbn [for_each map]. rewrite (B x) by now left.
  rewrite IH; [reflexivity|]. intros y I. apply B. now right.
Qed.

Lemma listeners_for_listener_add (listeners : listeners_map callable)
    (element : Element) event_type (listener : callable) :
  exists added,
    listener_add listeners (TargetElement element) event_type listener = Ok added /\
    listeners_for added event_type (ElementId (id element)) =
    listeners_for listeners event_type (ElementId (id element)) ++
    [{| Game.event_type := event_type; Game.op := listener |}].
Proof.
  eexists. split; [reflexivity|].
  unfold listeners_for at 1. unfold Frozendict.get_default at 2.
  rewrite get_set_same. unfold Frozendict.get_default at 1.
  now rewrite get_set_same.
Qed.

Lemma dispatch_to_target_calls_in_order_aux application event (i : UUID)
    (element : Element) :
  Frozendict.get (elements application) i = Some element ->
  dispatch_to_target application event (Some i) =
  (map (fun l => {| listener := l; event := event; target := OfElement element |})
     (listeners_for (listeners application) (type event) (ElementId i)),
   Ok tt).
Proof.
  intros G. unfold dispatch_to_target.
  apply for_each_map. intros l _.
  unfold call_with_element, Frozendict.getitem. now rewrite G.
Qed.

(** X9: a dispatch to a target that is in the element collection calls
    exactly the listeners registered for the event type on that target, in
    registration order, each with the element as it is in the collection;
    nothing else is called and nothing is raised. *)
Theorem dispatch_to_target_calls_in_order :
  forall application event (i : UUID) (element : Element),
    Frozendict.get (elements application) i = Some element ->
    dispatch_to_target application event (Some i) =
    (map (fun l => {| listener := l; event := event; target := OfElement element |})
       (listeners_for (listeners application) (type event) (ElementId i)),
     Ok tt).
Proof.
  intros application event i element G.
  now apply dispatch_to_target_calls_in_order_aux.
Qed.

(** X10: a dispatch to a target that is not in the element collection
    calls nothing: it raises [KeyError] when the target has listeners for
    the event type, and passes silently when it has none. *)
Theorem dispatch_to_target_missing_element :
  forall application event (i : UUID),
    Frozendict.get (elements application) i = None ->
    dispatch_to_target application event (Some i) =
    ([], match listeners_for (listeners application) (type event) (ElementId i) with
         | [] => Ok tt
         | _ :: _ => Raise KeyError
         end).
Proof.
  intros application event i G. unfold dispatch_to_target.
  fold (listeners_for (listeners application) (type event) (ElementId i)).
  destruct (listeners_for (listeners application) (type event) (ElementId i))
    as [|l ls]; [reflexivity|].
  cbn [for_each]. unfold call_with_element, Frozendict.getitem. now rewrite G.
Qed.

(** X11: registration order is dispatch order: after two calls of
    [listener_add] on an element, a dispatch to it calls the listeners it
    had before, then the first added, then the second. *)
Theorem listener_add_order_is_dispatch_order :
  forall application event (element stored : Element) (first second : callable),
    Frozendict.get (elements application) (id element) = Some stored ->
    exists once twice,
      listener_add (listeners application) (TargetElement element)
        (type event) first = Ok once /\
      listener_add once (TargetElement element) (type event) second = Ok twice /\
      dispatch_to_target
        {| events := events application; listeners := twice;
           elements := elements application |} event (Some (id element)) =
      (map (fun l => {| listener := l; event := event; target := OfElement stored |})
         (listeners_for (listeners application) (type event) (ElementId (id element)) ++
          [{| Game.event_type := type event; Game.op := first |};
           {| Game.event_type := type event; Game.op := second |}]),
       Ok tt).
Proof.
  intros application event element stored first second G.
  destruct (listeners_for_listener_add (listeners application) element
              (type event) first) as [once [A1 L1]].
  destruct (listeners_for_listener_add once element (type event) second)
    as [twice [A2 L2]].
  exists once, twice. split; [exact A1|]. split; [exact A2|].
  rewrite dispatch_to_target_calls_in_order_aux with (element := stored) by exact G.
  cbn [listeners]. rewrite L2, L1, <- app_assoc. reflexivity.
Qed.

End DispatchMore.

Section DispatchMouseMore.
Import Game Event Spec.
Context {callable : Type}.
Implicit Types (application : Application callable) (event : Event.Event).

(** The loop of [dispatch_mouse] raises as soon as one registered element
    is missing from the collection or has no bounds: the [KeyError] of the
    subscript or the [AssertionError] of [check_is_collide]. *)
Lemma hit_targets_raises application event (keys : list target_key) (i : UUID) :
  In (ElementId i) keys ->
  (forall element, Frozendict.get (elements application) i = Some element ->
                   position element = None) ->
  exists e,
    (e = KeyError \/ e = AssertionError) /\
    hit_targets application event keys = Raise e.
Proof.
  intros I Bad. induction keys as [|key keys IH]; [contradiction|].
  destruct key as [|j]; cbn [hit_targets].
  - apply IH. destruct I as [F|I]; [discriminate | exact I].
  - unfold Frozendict.getitem.
    destruct (Frozendict.get (elements application) j) as [element|] eqn:G;
      cbn [obind]; [|exists KeyError; split; [now left | reflexivity]].
    unfold check_is_collide.
    destruct (position element) as [rect|] eqn:P;
      [|exists AssertionError; split; [now right | reflexivity]].
    destruct (pos event) as [mouse_x mouse_y]. cbn [obind].
    destruct I as [E|I].
    + injection E as ->. rewrite (Bad element G) in P. discriminate.
    + destruct (IH I) as [e [Kind ->]]. exists e. split; [exact Kind | reflexivity].
Qed.

(** X12: one stale registration stops the whole pointer dispatch: when an
    element that has listeners for the event type is missing from the
    element collection, or has no bounds, [dispatch_mouse] raises the
    group of one exception, a [KeyError] or an [AssertionError], and no
    listener is called, the wildcard listeners included. *)
Theorem dispatch_mouse_stale_element :
  forall application event (i : UUID),
    In (ElementId i)
       (Frozendict.keys
          (Frozendict.get_default (listeners application) (type event)
             Frozendict.empty)) ->
    (forall element, Frozendict.get (elements application) i = Some element ->
                     position element = None) ->
    exists e,
      (e = KeyError \/ e = AssertionError) /\
      dispatch_mouse application event = ([], Raise (ExceptionGroup [e])).
Proof.
  intros application event i I Bad.
  destruct (hit_targets_raises application event _ i I Bad) as [e [Kind R]].
  exists e. split; [exact Kind|]. unfold dispatch_mouse. now rewrite R.
Qed.

(** X13: when the event type has listeners on the wildcard target only,
    [dispatch_mouse] calls each of them once, in registration order, with
    the application, and raises nothing. *)
Theorem dispatch_mouse_wildcard_only :
  forall application event (ls : list (Listener callable)),
    Frozendict.get (listeners application) (type event) = Some [(Wildcard, ls)] ->
    dispatch_mouse application event =
    (map (fun l => {| listener := l; event := event;
                      target := OfApplication application |}) ls,
     Ok tt).
Proof.
  intros application event ls G.
  unfold dispatch_mouse, dispatch_to_target, run_group, dispatch_to_target,
    Frozendict.get_default, Frozendict.items.
  rewrite G. cbn [Frozendict.keys map fst hit_targets for_each].
  rewrite (for_each_map ls _
             (fun l => {| listener := l; event := event;
                          target := OfApplication application |}))
    by reflexivity.
  now rewrite !app_nil_r.
Qed.

End DispatchMouseMore.

(** ** More on the mailbox actor (actor.py, common.py) *)

Section ActorMore.
Import Actor Loop Spec Spec2 Common.
Context `{PyClasses}.

(** The loop works through a prefix of the queue whose MutateRequests all
    succeed, creating one task per InvokeRequest of the prefix. *)
Lemma loop_prefix (before : list request) :
  forall rest initial s ts fs n fuel,
    fold_mutations initial (mutations before) = Ok s ->
    exists created,
      List.length created = List.length (invocations before) /\
      coroutine_reduce (List.length before + fuel) consume initial
        (Build_world (before ++ rest) ts fs n) =
      coroutine_reduce fuel consume s (Build_world rest (ts ++ created) fs n).
Proof.
  induction before as [|r before IH]; intros rest initial s ts fs n fuel F.
  - exists []. cbn in F. injection F as <-. now rewrite app_nil_r.
  - cbn [List.length Nat.add app coroutine_reduce]. destruct r as [m|x].
    + rewrite consume_Set. cbn [mutations flat_map app fold_mutations] in F.
      fold (mutations before) in F.
      destruct (mutate initial m) as [s1|e]; [|discriminate]. cbn [obind] in F.
      destruct (IH rest s1 s ts fs n fuel F) as [created [Len Run]].
      exists created. split; [exact Len | exact Run].
    + rewrite consume_Execute. cbn [mutations flat_map app] in F.
      fold (mutations before) in F.
      destruct (IH rest initial s
                  (ts ++ [{| task_request := x; task_state := initial |}]) fs n fuel F)
        as [created [Len Run]].
      exists ({| task_request := x; task_state := initial |} :: created).
      split; [cbn; now rewrite Len|].
      rewrite Run, <- app_assoc. reflexivity.
Qed.

(** Whatever the loop does, the tasks and futures that were there stay. *)
Lemma loop_keeps_tasks (queue : list request) :
  forall initial ts fs n fuel,
    List.length queue < fuel ->
    exists result later left,
      coroutine_reduce fuel consume initial (Build_world queue ts fs n) =
      Some (result, Build_world left (ts ++ later) fs n).
Proof.
  induction queue as [|r queue IH]; intros initial ts fs n fuel L;
    (destruct fuel as [|fuel]; [simpl in L; lia|]); cbn [coroutine_reduce].
  - rewrite consume_empty. exists (Ok initial), [], []. now rewrite app_nil_r.
  - simpl in L. destruct r as [m|x].
    + rewrite consume_Set. destruct (mutate initial m) as [s|e].
      * apply IH. lia.
      * destruct e;
          first [ exists (Ok initial), [], queue; now rewrite app_nil_r
                | eexists; exists [], queue; now rewrite app_nil_r ].
    + rewrite consume_Execute.
      destruct (IH initial (ts ++ [{| task_request := x; task_state := initial |}])
                  fs n fuel ltac:(lia)) as [result [later [left Run]]].
      exists result, ({| task_request := x; task_state := initial |} :: later), left.
      rewrite Run, <- app_assoc. reflexivity.
Qed.

(** X14: a MutateRequest that fails stops the actor for good: the loop
    ends with the request's exception, and the requests queued behind it
    are still in the mailbox, never processed.  When the exception is a
    cancellation the loop ends cleanly instead, with the State reached
    before the request. *)
Theorem loop_stops_at_failing_mutation :
  forall (before after : list request) (m : SetRequest.t) (initial s : pyval)
         (e : exn) (ts : list task) (fs : Frozendict.t nat future_state)
         (n fuel : nat),
    fold_mutations initial (mutations before) = Ok s ->
    mutate s m = Raise e ->
    List.length before < fuel ->
    exists ts',
      coroutine_reduce fuel consume initial
        (Build_world (before ++ Set_ m :: after) ts fs n) =
      Some (match e with
            | CancelledError => Ok s
            | _ => Raise e
            end, Build_world after ts' fs n).
Proof.
  intros before after m initial s e ts fs n fuel F Fail L.
  replace fuel with (List.length before + S (fuel - List.length before - 1)) by lia.
  destruct (loop_prefix before (Set_ m :: after) initial s ts fs n
              (S (fuel - List.length before - 1)) F) as [created [_ ->]].
  exists (ts ++ created). cbn [coroutine_reduce]. rewrite consume_Set, Fail.
  destruct e; reflexivity.
Qed.

(** X15: an InvokeRequest sees the State of its turn: when the
    MutateRequests queued before it succeed, the task made for it carries
    the State they fold to, whatever was enqueued after it, and the tasks
    are made in queue order. *)
Theorem invoke_gets_state_of_its_turn :
  forall (before after : list request) (r : ExecuteRequest.t) (initial s : pyval)
         (ts : list task) (fs : Frozendict.t nat future_state) (n fuel : nat),
    fold_mutations initial (mutations before) = Ok s ->
    List.length (before ++ Execute r :: after) < fuel ->
    exists result left earlier later,
      coroutine_reduce fuel consume initial
        (Build_world (before ++ Execute r :: after) ts fs n) =
      Some (result,
            Build_world left
              (ts ++ earlier ++ {| task_request := r; task_state := s |} :: later)
              fs n) /\
      List.length earlier = List.length (invocations before).
Proof.
  intros before after r initial s ts fs n fuel F L.
  rewrite length_app in L. cbn [List.length] in L.
  replace fuel with (List.length before + S (fuel - List.length before - 1)) by lia.
  destruct (loop_prefix before (Execute r :: after) initial s ts fs n
              (S (fuel - List.length before - 1)) F) as [earlier [Len ->]].
  cbn [coroutine_reduce]. rewrite consume_Execute.
  destruct (loop_keeps_tasks after s
              ((ts ++ earlier) ++ [{| task_request := r; task_state := s |}]) fs n
              (fuel - List.length before - 1) ltac:(lia))
    as [result [later [left ->]]].
  exists result, left, earlier, later. split; [|exact Len].
  rewrite <- !app_assoc. reflexivity.
Qed.

(** X16: the round trip of [execute_sync]: called on an empty mailbox, it
    returns a new pending future; the actor's next step leaves the State
    alone and makes one task; and when the operation returns, running that
    task fulfils the future with the operation's result on the target field
    (or the whole State), leaving every other future as it was. *)
Theorem execute_sync_round_trip :
  forall (state field target v : pyval)
         (f : pyval -> list pyval -> list (string * pyval) -> outcome pyval)
         (a : list pyval) (kw : list (string * pyval)) (w : world),
    mailbox w = [] ->
    future_of w (next_future w) = Pending ->
    (if truthy field then _state_getter state field else Ok state) = Ok target ->
    f target a kw = Ok v ->
    exists w1 w2 t w3,
      execute_sync field f a kw w = (Ok (next_future w), w1) /\
      consume state w1 = (Ok state, w2) /\
      mailbox w2 = [] /\
      tasks w2 = tasks w ++ [t] /\
      run_task t w2 = (Ok tt, w3) /\
      future_of w3 (next_future w) = Finished v /\
      forall other, other <> next_future w -> future_of w3 other = future_of w other.
Proof.
  intros state field target v f a kw [q ts fs n] Empty P T O.
  cbn [mailbox next_future tasks] in *. subst q.
  unfold future_of in P. cbn [futures] in P.
  set (request := {| ExecuteRequest.operation := {| op := f; args := a; kwargs := kw |};
                     ExecuteRequest.field := field;
                     ExecuteRequest.reply_to := Some n |}).
  set (t := {| task_request := request; task_state := state |}).
  exists (Build_world [Execute request] ts fs (S n)),
         (Build_world [] (ts ++ [t]) fs (S n)),
         t,
         (Build_world [] (ts ++ [t]) (Frozendict.set fs n (Finished v)) (S n)).
  split; [reflexivity|]. split; [reflexivity|].
  split; [reflexivity|]. split; [reflexivity|]. split; [|split].
  - unfold run_task, ExecuteRequest_call, bind, lift, t, request.
    cbn [task_request task_state ExecuteRequest.field ExecuteRequest.operation
         ExecuteRequest.reply_to op args kwargs].
    rewrite T, O. unfold set_result, future_of. cbn [futures]. now rewrite P.
  - unfold future_of, Frozendict.get_default. cbn [futures]. now rewrite get_set_same.
  - intros other N. unfold future_of, Frozendict.get_default. cbn [futures].
    now rewrite get_set_other.
Qed.

(** X17: [coroutine_loop] ends only through its body: never while every
    call of the body returns, cleanly when the body raises a cancellation,
    and with the body's exception otherwise; it is [coroutine_reduce] on a
    step without a value. *)
Theorem coroutine_loop_ends_by_exception :
  forall (coro_func : M unit),
    (forall fuel w,
       (forall w0, exists w1, coro_func w0 = (Ok tt, w1)) ->
       coroutine_loop fuel coro_func w = None) /\
    (forall fuel w w', coroutine_loop fuel coro_func w <> Some (Raise CancelledError, w')) /\
    (forall fuel w,
       coroutine_loop fuel coro_func w =
       coroutine_reduce fuel (fun _ : unit => coro_func) tt w).
Proof.
  intros coro_func. split; [|split].
  - intros fuel. induction fuel as [|fuel IH]; intros w Total; [reflexivity|].
    cbn [coroutine_loop]. destruct (Total w) as [w1 ->]. now apply IH.
  - intros fuel. induction fuel as [|fuel IH]; intros w w'; [discriminate|].
    cbn [coroutine_loop]. destruct (coro_func w) as [[[]|e] w1]; [apply IH|].
    destruct e; discriminate.
  - intros fuel. induction fuel as [|fuel IH]; intros w; [reflexivity|].
    cbn [coroutine_loop coroutine_reduce].
    destruct (coro_func w) as [[[]|e] w1]; [apply IH | reflexivity].
Qed.

End ActorMore.

(** ** The poll cycle (event.py) *)

Section PollFacts.
Import Actor Loop Spec Spec2 Poll.
Context `{PyClasses}.
Variable py : names.

Lemma route_enqueues (event : RawEvent) (w : world) :
  exists requests,
    route py event w =
      (Ok tt, Build_world (mailbox w ++ map Execute requests) (tasks w)
                (futures w) (next_future w)) /\
    List.length requests = (if routed py event then 1 else 0) /\
    Forall (fun x => ExecuteRequest.reply_to x = None) requests.
Proof.
  destruct w as [q ts fs n]. unfold route, routed, execute, put_nowait, ret.
  cbn [mailbox tasks futures next_future].
  destruct (type event =? QUIT py)%Z;
    [eexists [_]; cbn [map orb]; repeat split; repeat constructor|].
  destruct (type event =? MOUSEBUTTONDOWN py)%Z;
    [eexists [_]; cbn [map orb]; repeat split; repeat constructor|].
  cbn [orb].
  destruct (__target__ event) as [target|], (USEREVENT py <=? type event)%Z;
    first [ solve [eexists [_]; cbn [map]; repeat split; repeat constructor]
          | exists []; cbn [map]; rewrite app_nil_r; repeat split; constructor ].
Qed.

Lemma route_each_enqueues (events : list RawEvent) :
  forall w,
  exists requests,
    route_each py events w =
      (Ok tt, Build_world (mailbox w ++ map Execute requests) (tasks w)
                (futures w) (next_future w)) /\
    List.length requests = List.length (filter (routed py) events) /\
    Forall (fun x => ExecuteRequest.reply_to x = None) requests.
Proof.
  induction events as [|event events IH]; intros w.
  - exists []. destruct w. cbn. rewrite app_nil_r. repeat split. constructor.
  - cbn [route_each]. unfold bind.
    destruct (route_enqueues event w) as [first [-> [L1 R1]]].
    destruct (IH (Build_world (mailbox w ++ map Execute first) (tasks w)
                    (futures w) (next_future w))) as [more [-> [L2 R2]]].
    cbn [mailbox tasks futures next_future].
    exists (first ++ more). rewrite map_app, app_assoc. split; [reflexivity|].
    split.
    + rewrite length_app, L1, L2. cbn [filter].
      destruct (routed py event); reflexivity.
    + apply Forall_app. now split.
Qed.

Lemma process_enqueues_aux (events : list RawEvent) (w : world) :
  exists requests,
    process py events w =
      (Ok (next_future w),
       Build_world
         (mailbox w ++
          Execute {| ExecuteRequest.operation :=
                       {| op := event_post py; args := [REFRESH py]; kwargs := [] |};
                     ExecuteRequest.field := PyStr "events";
                     ExecuteRequest.reply_to := Some (next_future w) |} ::
          map Execute requests)
         (tasks w) (futures w) (S (next_future w))) /\
    List.length requests = List.length (filter (routed py) events) /\
    Forall (fun x => ExecuteRequest.reply_to x = None) requests.
Proof.
  unfold process, execute_sync, bind, new_future, put_nowait, ret.
  cbn [mailbox tasks futures next_future].
  destruct (route_each_enqueues events
              (Build_world
                 (mailbox w ++
                  [Execute {| ExecuteRequest.operation :=
                                {| op := event_post py; args := [REFRESH py];
                                   kwargs := [] |};
                              ExecuteRequest.field := PyStr "events";
                              ExecuteRequest.reply_to := Some (next_future w) |}])
                 (tasks w) (futures w) (S (next_future w))))
    as [requests [-> [L R]]].
  cbn [mailbox tasks futures next_future].
  exists requests. rewrite <- app_assoc. cbn [app]. now repeat split.
Qed.

Lemma mutations_invocations (requests : list ExecuteRequest.t) :
  mutations (map Execute requests) = [].
Proof. induction requests as [|x requests IH]; [reflexivity | exact IH]. Qed.

(** The loop over a queue of InvokeRequests only. *)
Lemma loop_all_invocations (requests : list ExecuteRequest.t) :
  forall state ts fs n fuel,
    List.length requests < fuel ->
    coroutine_reduce fuel consume state (Build_world (map Execute requests) ts fs n) =
    Some (Ok state,
          Build_world []
            (ts ++ map (fun x => {| task_request := x; task_state := state |}) requests)
            fs n).
Proof.
  induction requests as [|x requests IH]; intros state ts fs n fuel L;
    (destruct fuel as [|fuel]; [simpl in L; lia|]); cbn [coroutine_reduce map].
  - rewrite consume_empty. now rewrite app_nil_r.
  - rewrite consume_Execute. simpl in L. rewrite IH by lia.
    now rewrite <- app_assoc.
Qed.

Lemma route_request (event : RawEvent) (w : world) :
  route py event w =
  (Ok tt,
   Build_world
     (mailbox w ++
      map Execute
        (if (type event =? QUIT py)%Z then
           [{| ExecuteRequest.operation :=
                 {| op := event_quit py; args := []; kwargs := [] |};
               ExecuteRequest.field := PyStr "exit_event";
               ExecuteRequest.reply_to := None |}]
         else if (type event =? MOUSEBUTTONDOWN py)%Z then
           [{| ExecuteRequest.operation :=
                 {| op := dispatch_mouse py;
                    args := [reference event; mailbox_ref py; logger py];
                    kwargs := [] |};
               ExecuteRequest.field := PyNone;
               ExecuteRequest.reply_to := None |}]
         else if (USEREVENT py <=? type event)%Z then
           [{| ExecuteRequest.operation :=
                 {| op := dispatch_to_target py;
                    args := [reference event;
                             match __target__ event with
                             | Some target => target
                             | None => PyNone
                             end;
                             mailbox_ref py; logger py];
                    kwargs := [] |};
               ExecuteRequest.field := PyNone;
               ExecuteRequest.reply_to := None |}]
         else []))
     (tasks w) (futures w) (next_future w)).
Proof.
  destruct w as [q ts fs n]. unfold route, execute, put_nowait, ret.
  cbn [mailbox tasks futures next_future].
  destruct (type event =? QUIT py)%Z; [reflexivity|].
  destruct (type event =? MOUSEBUTTONDOWN py)%Z; [reflexivity|].
  destruct (__target__ event) as [target|], (USEREVENT py <=? type event)%Z;
    cbn [map]; rewrite ?app_nil_r; reflexivity.
Qed.

Lemma route_each_requests (events : list RawEvent) :
  forall w,
    route_each py events w =
    (Ok tt,
     Build_world
       (mailbox w ++
        map Execute
          (flat_map
             (fun event =>
                if (type event =? QUIT py)%Z then
                  [{| ExecuteRequest.operation :=
                        {| op := event_quit py; args := []; kwargs := [] |};
                      ExecuteRequest.field := PyStr "exit_event";
                      ExecuteRequest.reply_to := None |}]
                else if (type event =? MOUSEBUTTONDOWN py)%Z then
                  [{| ExecuteRequest.operation :=
                        {| op := dispatch_mouse py;
                           args := [reference event; mailbox_ref py; logger py];
                           kwargs := [] |};
                      ExecuteRequest.field := PyNone;
                      ExecuteRequest.reply_to := None |}]
                else if (USEREVENT py <=? type event)%Z then
                  [{| ExecuteRequest.operation :=
                        {| op := dispatch_to_target py;
                           args := [reference event;
                                    match __target__ event with
                                    | Some target => target
                                    | None => PyNone
                                    end;
                                    mailbox_ref py; logger py];
                           kwargs := [] |};
                      ExecuteRequest.field := PyNone;
                      ExecuteRequest.reply_to := None |}]
                else [])
             events))
       (tasks w) (futures w) (next_future w)).
Proof.
  induction events as [|event events IH]; intros w.
  - destruct w. cbn. now rewrite app_nil_r.
  - cbn [route_each flat_map]. unfold bind. rewrite route_request, IH.
    cbn [mailbox tasks futures next_future].
    now rewrite map_app, app_assoc.
Qed.

(** X18: one poll cycle leaves what the mailbox holds in front and
    enqueues behind it, first, the refresh request: [event_post] with
    [SystemEvent.REFRESH] on the field [events], carrying a new reply
    future, which is the one [process] then awaits; and then, for the
    polled events in poll order, one InvokeRequest without reply future
    each: [event_quit] on the field [exit_event] for a quit,
    [dispatch_mouse] with the event on the whole State for a
    pointer-button press, [dispatch_to_target] with the event and its
    target (or null) on the whole State for any other event of a user
    type, and nothing for the rest.  No MutateRequest is enqueued. *)
Theorem process_enqueues :
  forall (events : list RawEvent) (w : world),
    process py events w =
      (Ok (next_future w),
       Build_world
         (mailbox w ++
          Execute {| ExecuteRequest.operation :=
                       {| op := event_post py; args := [REFRESH py]; kwargs := [] |};
                     ExecuteRequest.field := PyStr "events";
                     ExecuteRequest.reply_to := Some (next_future w) |} ::
          map Execute
            (flat_map
               (fun event =>
                  if (type event =? QUIT py)%Z then
                    [{| ExecuteRequest.operation :=
                          {| op := event_quit py; args := []; kwargs := [] |};
                        ExecuteRequest.field := PyStr "exit_event";
                        ExecuteRequest.reply_to := None |}]
                  else if (type event =? MOUSEBUTTONDOWN py)%Z then
                    [{| ExecuteRequest.operation :=
                          {| op := dispatch_mouse py;
                             args := [reference event; mailbox_ref py; logger py];
                             kwargs := [] |};
                        ExecuteRequest.field := PyNone;
                        ExecuteRequest.reply_to := None |}]
                  else if (USEREVENT py <=? type event)%Z then
                    [{| ExecuteRequest.operation :=
                          {| op := dispatch_to_target py;
                             args := [reference event;
                                      match __target__ event with
                                      | Some target => target
                                      | None => PyNone
                                      end;
                                      mailbox_ref py; logger py];
                             kwargs := [] |};
                        ExecuteRequest.field := PyNone;
                        ExecuteRequest.reply_to := None |}]
                  else [])
               events))
         (tasks w) (futures w) (S (next_future w))) /\
    mutations (mailbox (snd (process py events w))) = mutations (mailbox w).
Proof.
  intros events w.
  unfold process, execute_sync, bind, new_future, put_nowait, ret.
  cbn [mailbox tasks futures next_future].
  rewrite route_each_requests. cbn [mailbox tasks futures next_future snd].
  rewrite <- app_assoc. cbn [app]. split; [reflexivity|].
  rewrite mutations_app. cbn [mutations flat_map app].
  match goal with
  | |- _ ++ flat_map _ (map Execute ?requests) = _ =>
      fold (mutations (map Execute requests));
      now rewrite mutations_invocations, app_nil_r
  end.
Qed.

(** X19: the dispatcher never changes the State: when the actor works
    through what a poll cycle enqueued into an empty mailbox, it ends with
    the State it started from, having made one task for the refresh and
    one per routed event, each with that State. *)
Theorem process_leaves_state :
  forall (events : list RawEvent) (state : pyval) (ts : list task)
         (fs : Frozendict.t nat future_state) (n fuel : nat),
    S (List.length events) < fuel ->
    exists w1 created,
      process py events (Build_world [] ts fs n) = (Ok n, w1) /\
      coroutine_reduce fuel consume state w1 =
        Some (Ok state, Build_world [] (ts ++ created) fs (S n)) /\
      List.length created = S (List.length (filter (routed py) events)) /\
      Forall (fun t => task_state t = state) created.
Proof.
  intros events state ts fs n fuel L.
  destruct (process_enqueues_aux events (Build_world [] ts fs n))
    as [requests [P [Len _]]].
  cbn [mailbox tasks futures next_future app] in P.
  eexists. eexists. split; [exact P|].
  change (Execute ?x :: map Execute requests) with (map Execute (x :: requests)).
  rewrite loop_all_invocations.
  - split; [reflexivity|]. split.
    + rewrite length_map. cbn [List.length]. now rewrite Len.
    + apply Forall_forall. intros t I. apply in_map_iff in I.
      destruct I as [x [<- _]]. reflexivity.
  - cbn [List.length]. rewrite Len.
    pose proof (filter_length_le (routed py) events). lia.
Qed.

End PollFacts.

(** ** The theorems of Part III at concrete inputs *)

Section MoreExamples.
Import Actor Loop Game GameOps Event Spec Spec2 Fixtures Fixtures2.

Lemma listener_add_then_remove_witness :
  exists added removed,
    listener_add (listeners click_application)
      (TargetElement {| position := None; id := 9%N |}) MOUSEBUTTONDOWN
      "on_new"%string = Ok added /\
    listeners_remove added {| position := None; id := 9%N |} = Ok removed /\
    forall event_type' key,
      listeners_for removed event_type' key =
      listeners_for (listeners click_application) event_type' key.
Proof.
  apply (listener_add_then_remove (listeners click_application)
           {| position := None; id := 9%N |} MOUSEBUTTONDOWN "on_new"%string).
  - repeat constructor. simpl. tauto.
  - intros event targets [E|[]]. injection E as _ <-. reflexivity.
Defined.

Lemma event_register_system_tags_witness :
  (custom_event {| custom_event := 32867 |} + 4 <= 65535)%Z /\
  exists application',
    application_init 65535 click_application {| custom_event := 32867 |} =
      (Ok application', {| custom_event := 32867 + 4 |}) /\
    Frozendict.get (events application') (SystemKey INIT) = Some 32867%Z /\
    Frozendict.get (events application') (SystemKey EXIT) = Some (32867 + 1)%Z /\
    Frozendict.get (events application') (SystemKey REFRESH) = Some (32867 + 2)%Z /\
    Frozendict.get (events application') (SystemKey FRAME_NEXT) = Some (32867 + 3)%Z /\
    (forall name, Frozendict.get (events application') (CustomKey name) =
                  Frozendict.get (events click_application) (CustomKey name)) /\
    listeners application' = listeners click_application /\
    elements application' = elements click_application.
Proof.
  split; [discriminate|].
  apply (event_register_system_tags 65535 click_application
           {| custom_event := 32867 |}).
  discriminate.
Defined.

Lemma event_register_system_exhausted_witness :
  (32870 < custom_event {| custom_event := 32867 |} + 4)%Z /\
  fst (event_register_system 32870 click_application {| custom_event := 32867 |}) =
  Raise PygameError.
Proof.
  split; [reflexivity|].
  apply (event_register_system_exhausted 32870 click_application
           {| custom_event := 32867 |}).
  reflexivity.
Defined.

Lemma event_post_after_register_witness :
  exists events' pg',
    event_register 65535 Frozendict.empty (SystemKey INIT)
      {| custom_event := 32867 |} = (Ok events', pg') /\
    event_post post_to_list events' (SystemKey INIT) None [] =
      (Ok tt, [{| posted_type := 32867; posted_target := None |}]) /\
    forall other,
      Frozendict.get events' other = None ->
      event_post post_to_list events' other None [] = (Ok tt, []).
Proof.
  apply (event_post_after_register (list posted) post_to_list 65535%Z
           Frozendict.empty (SystemKey INIT) None {| custom_event := 32867 |} []).
  - reflexivity.
  - discriminate.
Defined.

Lemma dispatch_to_target_calls_in_order_witness :
  Frozendict.get (elements click_application) 1%N = Some elem_a /\
  dispatch_to_target click_application click (Some 1%N) =
  ([{| listener := on "on_a"; event := click; target := OfElement elem_a |}], Ok tt).
Proof.
  split; [reflexivity|].
  apply (dispatch_to_target_calls_in_order click_application click 1%N elem_a).
  reflexivity.
Defined.

Lemma dispatch_to_target_missing_element_witness :
  Frozendict.get (elements click_application) 9%N = None /\
  dispatch_to_target
    {| events := Frozendict.empty;
       listeners := [(MOUSEBUTTONDOWN, [(ElementId 9%N, [on "on_gone"])])];
       elements := Frozendict.empty |} click (Some 9%N) =
  ([], Raise KeyError).
Proof.
  split; [reflexivity|].
  apply (dispatch_to_target_missing_element
           {| events := Frozendict.empty;
              listeners := [(MOUSEBUTTONDOWN, [(ElementId 9%N, [on "on_gone"])])];
              elements := Frozendict.empty |} click 9%N).
  reflexivity.
Defined.

Lemma listener_add_order_is_dispatch_order_witness :
  exists once twice,
    listener_add (listeners click_application) (TargetElement elem_a)
      (type click) "first"%string = Ok once /\
    listener_add once (TargetElement elem_a) (type click) "second"%string = Ok twice /\
    dispatch_to_target
      {| events := events click_application; listeners := twice;
         elements := elements click_application |} click (Some (id elem_a)) =
    ([{| listener := on "on_a"; event := click; target := OfElement elem_a |};
      {| listener := on "first"; event := click; target := OfElement elem_a |};
      {| listener := on "second"; event := click; target := OfElement elem_a |}],
     Ok tt).
Proof.
  apply (listener_add_order_is_dispatch_order click_application click elem_a elem_a
           "first"%string "second"%string).
  reflexivity.
Defined.

Lemma dispatch_mouse_stale_element_witness :
  exists e,
    (e = KeyError \/ e = AssertionError) /\
    dispatch_mouse
      {| events := Frozendict.empty;
         listeners := [(MOUSEBUTTONDOWN,
                        [(Wildcard, [on "on_any"]); (ElementId 9%N, [on "on_gone"])])];
         elements := [(1%N, elem_a)] |} click =
    ([], Raise (ExceptionGroup [e])).
Proof.
  apply (dispatch_mouse_stale_element
           {| events := Frozendict.empty;
              listeners := [(MOUSEBUTTONDOWN,
                             [(Wildcard, [on "on_any"]); (ElementId 9%N, [on "on_gone"])])];
              elements := [(1%N, elem_a)] |} click 9%N).
  - right. left. reflexivity.
  - intros element G. discriminate G.
Defined.

(** The two kinds of stale registration: the element is gone, or it has
    no bounds. *)
Example dispatch_mouse_stale_kinds :
  dispatch_mouse
    {| events := Frozendict.empty;
       listeners := [(MOUSEBUTTONDOWN,
                      [(Wildcard, [on "on_any"]); (ElementId 9%N, [on "on_gone"])])];
       elements := [(1%N, elem_a)] |} click =
    ([], Raise (ExceptionGroup [KeyError])) /\
  dispatch_mouse
    {| events := Frozendict.empty;
       listeners := [(MOUSEBUTTONDOWN,
                      [(Wildcard, [on "on_any"]); (ElementId 9%N, [on "on_flat"])])];
       elements := [(9%N, {| position := None; id := 9%N |})] |} click =
    ([], Raise (ExceptionGroup [AssertionError])).
Proof. split; reflexivity. Qed.

Lemma dispatch_mouse_wildcard_only_witness :
  dispatch_mouse
    {| events := Frozendict.empty;
       listeners := [(MOUSEBUTTONDOWN, [(Wildcard, [on "one"; on "two"])])];
       elements := [(1%N, elem_a)] |} click =
  ([{| listener := on "one"; event := click;
       target := OfApplication
                   {| events := Frozendict.empty;
                      listeners := [(MOUSEBUTTONDOWN, [(Wildcard, [on "one"; on "two"])])];
                      elements := [(1%N, elem_a)] |} |};
    {| listener := on "two"; event := click;
       target := OfApplication
                   {| events := Frozendict.empty;
                      listeners := [(MOUSEBUTTONDOWN, [(Wildcard, [on "one"; on "two"])])];
                      elements := [(1%N, elem_a)] |} |}],
   Ok tt).
Proof.
  apply (dispatch_mouse_wildcard_only
           {| events := Frozendict.empty;
              listeners := [(MOUSEBUTTONDOWN, [(Wildcard, [on "one"; on "two"])])];
              elements := [(1%N, elem_a)] |} click [on "one"; on "two"]).
  reflexivity.
Defined.

Lemma loop_stops_at_failing_mutation_witness :
  exists ts',
    coroutine_reduce 3 (@consume default_truth) app_state
      (Build_world
         ([mutate_field (returns (PyDict [])) "elements"] ++
          mutate_field returns_target "missing" :: [Execute failing_invoke])
         [] Frozendict.empty 1) =
    Some (Raise AttributeError,
          Build_world [Execute failing_invoke] ts' Frozendict.empty 1).
Proof.
  apply (@loop_stops_at_failing_mutation default_truth
           [mutate_field (returns (PyDict [])) "elements"]
           [Execute failing_invoke]
           {| SetRequest.operation := returns_target;
              SetRequest.field := PyStr "missing" |}
           app_state
           (PyData "Application"
              [("events", PyDict []); ("elements", PyDict []);
               ("data", PyDict [(PyStr "score", PyInt 7)])]%string)
           AttributeError [] Frozendict.empty 1 3).
  - reflexivity.
  - reflexivity.
  - simpl. lia.
Defined.

Lemma invoke_gets_state_of_its_turn_witness :
  exists result left earlier later,
    coroutine_reduce 4 (@consume default_truth) app_state
      (Build_world
         ([mutate_field (returns (PyDict [])) "elements"] ++
          Execute failing_invoke :: [mutate_field (returns (PyInt 0)) "data"])
         [] Frozendict.empty 1) =
    Some (result,
          Build_world left
            ([] ++ earlier ++
             {| task_request := failing_invoke;
                task_state :=
                  PyData "Application"
                    [("events", PyDict []); ("elements", PyDict []);
                     ("data", PyDict [(PyStr "score", PyInt 7)])]%string |} :: later)
            Frozendict.empty 1) /\
    List.length earlier =
    List.length (invocations [mutate_field (returns (PyDict [])) "elements"]).
Proof.
  apply (@invoke_gets_state_of_its_turn default_truth
           [mutate_field (returns (PyDict [])) "elements"]
           [mutate_field (returns (PyInt 0)) "data"]
           failing_invoke app_state
           (PyData "Application"
              [("events", PyDict []); ("elements", PyDict []);
               ("data", PyDict [(PyStr "score", PyInt 7)])]%string)
           [] Frozendict.empty 1 4).
  - reflexivity.
  - simpl. lia.
Defined.

Lemma execute_sync_round_trip_witness :
  exists w1 w2 t w3,
    execute_sync (PyStr "data") (Actor.op returns_target) [] [] start = (Ok 0, w1) /\
    @consume default_truth app_state w1 = (Ok app_state, w2) /\
    mailbox w2 = [] /\
    tasks w2 = [] ++ [t] /\
    @run_task default_truth t w2 = (Ok tt, w3) /\
    future_of w3 0 = Finished (PyDict [(PyStr "score", PyInt 7)]) /\
    forall other, other <> 0 -> future_of w3 other = future_of start other.
Proof.
  apply (@execute_sync_round_trip default_truth app_state (PyStr "data")
           (PyDict [(PyStr "score", PyInt 7)]) (PyDict [(PyStr "score", PyInt 7)])
           (Actor.op returns_target) [] [] start);
    reflexivity.
Defined.

Lemma process_leaves_state_witness :
  S (List.length polled) < 6 /\
  exists w1 created,
    Poll.process pygame_names polled (Build_world [] [] Frozendict.empty 0) =
      (Ok 0, w1) /\
    coroutine_reduce 6 (@consume default_truth) app_state w1 =
      Some (Ok app_state, Build_world [] ([] ++ created) Frozendict.empty 1) /\
    List.length created = 4 /\
    Forall (fun t => task_state t = app_state) created.
Proof.
  split; [simpl; lia|].
  apply (@process_leaves_state default_truth pygame_names polled app_state
           [] Frozendict.empty 0 6).
  simpl. lia.
Defined.

(** One poll cycle at pygame's constants: the key press is dropped, the
    click, the frame event with its target and the quit are routed, behind
    the refresh. *)
Example process_polled :
  List.map
    (fun r => match r with
              | Execute x => (ExecuteRequest.field x, ExecuteRequest.reply_to x,
                              args (ExecuteRequest.operation x))
              | Set_ m => (SetRequest.field m, None, [])
              end)
    (mailbox (snd (Poll.process pygame_names polled start))) =
  [ (PyStr "events", Some 0, [PyStr "SystemEvent.REFRESH"]);
    (PyNone, None, [PyStr "click"; PyStr "mailbox"; PyStr "logger"]);
    (PyNone, None, [PyStr "frame"; PyInt 1; PyStr "mailbox"; PyStr "logger"]);
    (PyStr "exit_event", None, []) ].
Proof. reflexivity. Qed.

(** [listener_add_list] with two pairs: only the second is registered. *)
Example listener_add_list_two_pairs :
  listener_add_list (listeners click_application) (TargetValue PyNone)
    [(MOUSEBUTTONDOWN, "first"%string); (MOUSEBUTTONDOWN, "second"%string)] =
  inl [(MOUSEBUTTONDOWN,
        [(ElementId 1%N, [on "on_a"]);
         (ElementId 2%N, [on "on_b"]);
         (ElementId 3%N, [on "on_c"]);
         (Wildcard, [on "on_any"; on "second"])])].
Proof. reflexivity. Qed.

End MoreExamples.
